(** * high_dimensional_sampling.experiments: stopping criteria, control loop, Logger

    A shallow embedding of [src/high_dimensional_sampling/experiments.py]
    (Python 3: the module imports [ABC] from [abc]).

    - Python [int] is [Z]; numpy/Python floats are an abstract type [num]
      with the operations the module uses (class [PyFloat]); the rationals
      give one concrete instance, used for the worked scenario.
    - A raised exception is a value [Raise e] of [result]; code that mutates
      [self] before raising keeps the mutation, so methods are state
      transformers [S -> S * result A].
    - File objects live in a store [gmap string file] keyed by path; a
      Logger holds references (paths) into it, so the files outlive the
      Logger object.  A file object buffers: what is written to it is
      kept apart from what [flush()] or [close()] has put in the file.
    - The method and the test function are external collaborators: what they
      answer in each iteration is given by a script, one entry per
      iteration. *)

From Stdlib Require Import ZArith QArith Lia String Ascii DecimalString.
From stdpp Require Import base option list strings gmap.

#[local] Open Scope string_scope.
#[local] Open Scope Z_scope.

(** ** Exceptions and results *)

Inductive exn : Type :=
| TypeError
| ValueError
| IndexError
| AttributeError
| Exception (msg : string)
| ExternalError (msg : string).

Inductive result (A : Type) : Type :=
| Ok (a : A)
| Raise (e : exn).
Arguments Ok {A} a.
Arguments Raise {A} e.

Definition is_raise {A} (r : result A) : bool :=
  match r with Ok _ => false | Raise _ => true end.

(** State-and-exception monad: the state reached so far survives a raise. *)
Definition M (S A : Type) : Type := S -> S * result A.

Definition ret {S A} (a : A) : M S A := fun s => (s, Ok a).
Definition raise {S A} (e : exn) : M S A := fun s => (s, Raise e).
Definition bind {S A B} (c : M S A) (k : A -> M S B) : M S B :=
  fun s => match c s with
           | (s', Ok a) => k a s'
           | (s', Raise e) => (s', Raise e)
           end.
Definition get {S} : M S S := fun s => (s, Ok s).
Definition put {S} (s : S) : M S unit := fun _ => (s, Ok tt).
Definition lift {S A} (r : result A) : M S A := fun s => (s, r).

Notation "x <~ c ;; k" := (bind c (fun x => k))
  (at level 100, c at next level, right associativity).
Notation "c ;;; k" := (bind c (fun _ => k))
  (at level 100, right associativity).

(** [for a in l: body(a)] *)
Fixpoint for_ {S A} (l : list A) (body : A -> M S unit) : M S unit :=
  match l with
  | [] => ret tt
  | a :: l' => body a ;;; for_ l' body
  end.

(** ** Python built-ins used by the module *)

(** [len(l)] *)
Definition len {A} (l : list A) : Z := Z.of_nat (length l).

(** [l[i]], negative indices counted from the end; [None] is IndexError. *)
Definition py_index {A} (l : list A) (i : Z) : option A :=
  if i <? 0 then
    (if len l + i <? 0 then None else l !! Z.to_nat (len l + i))
  else l !! Z.to_nat i.

Definition index {A} (l : list A) (i : Z) : result A :=
  match py_index l i with Some a => Ok a | None => Raise IndexError end.

(** [range(start, stop, -1)]: start, start-1, ..., stop+1. *)
Definition range_down (start stop : Z) : list Z :=
  map (fun k => start - Z.of_nat k) (seq 0 (Z.to_nat (start - stop))).

(** [range(n)] *)
Definition range (n : Z) : list Z :=
  map Z.of_nat (seq 0 (Z.to_nat n)).

(** [str(i)] for an int. *)
Definition str_int (z : Z) : string := NilZero.string_of_int (Z.to_int z).

(** [str(b)] for a bool. *)
Definition str_bool (b : bool) : string := if b then "True" else "False".

(** [sep.join(fields)] *)
Definition join (sep : string) (fields : list string) : string :=
  String.concat sep fields.

(** The last character of a string, [d] for the empty string. *)
Fixpoint last_char (s : string) (d : ascii) : ascii :=
  match s with
  | EmptyString => d
  | String c s' => last_char s' c
  end.

(** [a > b] where [a] is an int and [b] is an int or [None]: Python 3 has no
    ordering between [int] and [NoneType]. *)
Definition int_gt (a : Z) (b : option Z) : result bool :=
  match b with
  | Some b => Ok (b <? a)
  | None => Raise TypeError
  end.

(** [a >= b], same typing. *)
Definition int_ge (a : Z) (b : option Z) : result bool :=
  match b with
  | Some b => Ok (b <=? a)
  | None => Raise TypeError
  end.

(** ** Floating-point values *)

Class PyFloat (num : Type) : Type := {
  fsub : num -> num -> num;          (* a - b *)
  fdiv : num -> num -> num;          (* a / float(b) *)
  fgtb : num -> num -> bool;         (* a > b *)
  fmin : num -> num -> num;          (* the smaller of two, as np.min folds *)
  fstr : num -> string               (* str(a) *)
}.

(** The rationals as numbers; [fstr] shows numerator and denominator. *)
#[export] Instance Q_PyFloat : PyFloat Q := {|
  fsub := Qminus;
  fdiv := Qdiv;
  fgtb := fun a b => negb (Qle_bool a b);
  fmin := fun a b => if Qle_bool a b then a else b;
  fstr := fun q => str_int (Qnum q) ++ "/" ++ str_int (Zpos (Qden q))
|}.

Section Numeric.
Context {num : Type} `{PyFloat num}.

(** A 2-D [numpy.ndarray] of shape (nDatapoints, nVariables), row by row. *)
Definition ndarray : Type := list (list num).

(** [np.min(y)]: the minimum over all entries; numpy raises ValueError on a
    zero-size array. *)
Definition np_min (y : ndarray) : result num :=
  match concat y with
  | [] => Raise ValueError
  | v :: vs => Ok (foldl fmin v vs)
  end.

(** ** OptimisationExperiment *)

(** Instance attributes set by [OptimisationExperiment.run]. *)
Record OptimisationExperiment : Type := {
  epsilon : num;
  absolute_improvement : bool;
  patience : Z;
  finish_line : option Z;            (* [None] is Python's None *)
  n_sampled : option (list Z);       (* [None] until the first call *)
  optimals : list num
}.

Definition set_n_sampled (l : list Z) (self : OptimisationExperiment) :=
  {| epsilon := epsilon self; absolute_improvement := absolute_improvement self;
     patience := patience self; finish_line := finish_line self;
     n_sampled := Some l; optimals := optimals self |}.

Definition set_optimals (o : list num) (self : OptimisationExperiment) :=
  {| epsilon := epsilon self; absolute_improvement := absolute_improvement self;
     patience := patience self; finish_line := finish_line self;
     n_sampled := n_sampled self; optimals := o |}.

(** [self.n_sampled[i]]; subscripting [None] is a TypeError. *)
Definition n_sampled_at (self : OptimisationExperiment) (i : Z) : result Z :=
  match n_sampled self with
  | None => Raise TypeError
  | Some l => index l i
  end.

(** The improvement measure of entry [i] against [cut]. *)
Definition condition (self : OptimisationExperiment) (cut : num) (oi : num) : num :=
  if absolute_improvement self then fsub cut oi else fdiv oi cut.

(** Entry [j] of [optimals] passes the epsilon test against [cut]. *)
Definition improved (self : OptimisationExperiment) (cut : num) (j : nat) : Prop :=
  exists oj, optimals self !! j = Some oj /\
             fgtb (condition self cut oj) (epsilon self) = true.

(** The [for i in range(len(self.optimals) - 2, 0, -1)] loop of
    [_sampled_since_last_improvement], with its early [return]; [None] means
    the loop ran to its end. *)
Fixpoint scan (self : OptimisationExperiment) (cut : num) (idx : list Z)
  : result (option Z) :=
  match idx with
  | [] => Ok None
  | i :: idx' =>
      match index (optimals self) i with
      | Raise e => Raise e
      | Ok oi =>
          if fgtb (condition self cut oi) (epsilon self) then
            match n_sampled_at self (-1) with
            | Raise e => Raise e
            | Ok last =>
                match n_sampled_at self i with
                | Raise e => Raise e
                | Ok ni => Ok (Some (last - ni))
                end
            end
          else scan self cut idx'
      end
  end.

Definition _sampled_since_last_improvement (self : OptimisationExperiment)
  : result Z :=
  match index (optimals self) (-1) with
  | Raise e => Raise e
  | Ok cut =>
      match scan self cut (range_down (len (optimals self) - 2) 0) with
      | Raise e => Raise e
      | Ok (Some r) => Ok r
      | Ok None =>
          match n_sampled_at self (-1) with
          | Raise e => Raise e
          | Ok last =>
              match n_sampled_at self 0 with
              | Raise e => Raise e
              | Ok first => Ok (last - first)
              end
          end
      end
  end.

Definition Optimisation_stop_experiment (x y : ndarray)
  : M OptimisationExperiment bool :=
  (self <~ get ;;
   match n_sampled self with
   | None => put (set_n_sampled [len x] self)
   | Some l => last <~ lift (index l (-1)) ;;
               put (set_n_sampled (l ++ [last + len x]) self)
   end) ;;;
  self <~ get ;;
  last <~ lift (n_sampled_at self (-1)) ;;
  over <~ lift (int_gt last (finish_line self)) ;;
  if over : bool then ret true else
  m <~ lift (np_min y) ;;
  put (set_optimals (optimals self ++ [m]) self) ;;;
  self <~ get ;;
  since <~ lift (_sampled_since_last_improvement self) ;;
  if patience self <? since then ret true else
  ret false.

(** ** PosteriorSamplingExperiment *)

Record PosteriorSamplingExperiment : Type := {
  ps_finish_line : option Z;
  ps_n_sampled : Z
}.

Definition PosteriorSampling_stop_experiment (x y : ndarray)
  : M PosteriorSamplingExperiment bool :=
  self <~ get ;;
  put {| ps_finish_line := ps_finish_line self;
         ps_n_sampled := ps_n_sampled self + len x |} ;;;
  self <~ get ;;
  reached <~ lift (int_ge (ps_n_sampled self) (ps_finish_line self)) ;;
  if reached : bool then ret true else
  ret false.

(** ** Files

    A file with the file object opened on it.  [content] is what an
    explicit [flush()] or [close()] has put on disk; [pending] is what
    has been written to the file object since and sits in its buffer (the
    buffer may hand a prefix of it to the disk on its own when it fills
    up); [is_open] tells whether the file object is still open. *)

Record file : Type := {
  content : list string;
  pending : list string;
  is_open : bool
}.

(** Everything written through the file object so far, in order. *)
Definition written (f : file) : list string := content f ++ pending f.

Definition os_sep : string := "/".
Definition nl : string := String (ascii_of_nat 10) EmptyString.

(** [open(p, "w")]: creates or truncates. *)
Definition open_w (p : string) (fs : gmap string file) : gmap string file :=
  <[p := {| content := []; pending := []; is_open := true |}]> fs.

(** [handle.write(s)]: into the buffer; writing to a closed file is a
    ValueError. *)
Definition write_to (p : string) (s : string) (fs : gmap string file)
  : result (gmap string file) :=
  match fs !! p with
  | Some f =>
      if is_open f
      then Ok (<[p := {| content := content f; pending := pending f ++ [s];
                         is_open := true |}]> fs)
      else Raise ValueError
  | None => Raise ValueError
  end.

(** [handle.flush()]: the buffer goes to disk; flushing a closed file is a
    ValueError. *)
Definition flush_to (p : string) (fs : gmap string file)
  : result (gmap string file) :=
  match fs !! p with
  | Some f =>
      if is_open f
      then Ok (<[p := {| content := content f ++ pending f; pending := [];
                         is_open := true |}]> fs)
      else Raise ValueError
  | None => Raise ValueError
  end.

(** [handle.close()]: flushes, then closes; closing twice is harmless. *)
Definition close (p : string) (fs : gmap string file) : gmap string file :=
  alter (fun f => if is_open f
                  then {| content := content f ++ pending f; pending := [];
                          is_open := false |}
                  else f) p fs.

(** [os.path.exists(p)] *)
Definition path_exists (p : string) (fs : gmap string file) : bool :=
  match fs !! p with Some _ => true | None => false end.

(** ** Logger *)

Record Logger : Type := {
  basepath : string;
  lpath : string;                    (* [self.path] *)
  method_calls : Z;
  create_samples_header : bool;
  handle_samples : string;           (* file objects, by the path they are on *)
  handle_functioncalls : string;
  handle_methodcalls : string
}.

(** A Logger method runs on the Logger object and the file store. *)
Definition LM (A : Type) : Type := M (Logger * gmap string file) A.

Definition self_logger : LM Logger := fun s => (s, Ok (fst s)).
(** An assignment to attributes of [self]. *)
Definition update_self (f : Logger -> Logger) : LM unit :=
  fun s => ((f (fst s), snd s), Ok tt).
Definition files : LM (gmap string file) := fun s => (s, Ok (snd s)).

Definition open_file (p : string) : LM unit :=
  fun s => ((fst s, open_w p (snd s)), Ok tt).
Definition close_file (p : string) : LM unit :=
  fun s => ((fst s, close p (snd s)), Ok tt).
Definition write (p : string) (text : string) : LM unit :=
  fun s => match write_to p text (snd s) with
           | Ok fs' => ((fst s, fs'), Ok tt)
           | Raise e => (s, Raise e)
           end.
Definition flush_file (p : string) : LM unit :=
  fun s => match flush_to p (snd s) with
           | Ok fs' => ((fst s, fs'), Ok tt)
           | Raise e => (s, Raise e)
           end.

Definition set_method_calls (n : Z) (l : Logger) : Logger :=
  {| basepath := basepath l; lpath := lpath l; method_calls := n;
     create_samples_header := create_samples_header l;
     handle_samples := handle_samples l;
     handle_functioncalls := handle_functioncalls l;
     handle_methodcalls := handle_methodcalls l |}.

Definition set_create_samples_header (b : bool) (l : Logger) : Logger :=
  {| basepath := basepath l; lpath := lpath l; method_calls := method_calls l;
     create_samples_header := b;
     handle_samples := handle_samples l;
     handle_functioncalls := handle_functioncalls l;
     handle_methodcalls := handle_methodcalls l |}.

Definition functioncalls_header : string :=
  "method_call_id,n_queried,dt,asked_for_derivative" ++ nl.
Definition methodcalls_header : string :=
  "method_call_id,dt,total_dataset_size,new_data_generated" ++ nl.

(** [Logger._create_handles] *)
Definition _create_handles : LM unit :=
  self <~ self_logger ;;
  open_file (handle_samples self) ;;;
  open_file (handle_functioncalls self) ;;;
  write (handle_functioncalls self) functioncalls_header ;;;
  open_file (handle_methodcalls self) ;;;
  write (handle_methodcalls self) methodcalls_header.

(** [Logger.__init__]; [folder] is what
    [utils.create_unique_folder(path, prefered_subfolder)] returned.  The
    three handle attributes name the files [_create_handles] opens. *)
Definition Logger_init (path folder : string) (fs : gmap string file)
  : (Logger * gmap string file) * result unit :=
  _create_handles
    ({| basepath := path; lpath := folder; method_calls := 0;
        create_samples_header := true;
        handle_samples := folder ++ os_sep ++ "samples.csv";
        handle_functioncalls := folder ++ os_sep ++ "functioncalls.csv";
        handle_methodcalls := folder ++ os_sep ++ "methodcalls.csv" |}, fs).

(** [Logger.__del__]: every handle of a constructed Logger exists, so each
    [hasattr] test succeeds. *)
Definition Logger_del (l : Logger) (fs : gmap string file) : gmap string file :=
  foldl (fun fs h => close h fs) fs
        [handle_samples l; handle_functioncalls l; handle_methodcalls l].

(** The header line of the samples stream for rows [x0] and [y0]. *)
Definition samples_header (x0 y0 : list num) : string :=
  join "," (["method_call_id"]
            ++ map (fun i => "x" ++ str_int i) (range (len x0))
            ++ map (fun i => "y" ++ str_int i) (range (len y0))) ++ nl.

(** One data line of the samples stream. *)
Definition samples_line (id : Z) (point label : list string) : string :=
  join "," ([str_int id] ++ point ++ label) ++ nl.

Definition log_samples (x y : ndarray) : LM unit :=
  self <~ self_logger ;;
  (if create_samples_header self then
     x0 <~ lift (index x 0) ;;
     y0 <~ lift (index y 0) ;;
     write (handle_samples self) (samples_header x0 y0) ;;;
     update_self (set_create_samples_header false)
   else ret tt) ;;;
  let n_datapoints := len x in
  let points := map (map fstr) x in
  let labels := map (map fstr) y in
  for_ (range n_datapoints) (fun i =>
    self <~ self_logger ;;
    point <~ lift (index points i) ;;
    label <~ lift (index labels i) ;;
    write (handle_samples self) (samples_line (method_calls self) point label)) ;;;
  self <~ self_logger ;;
  flush_file (handle_samples self).

Definition log_method_calls (dt : num) (size_total size_generated : Z) : LM unit :=
  self <~ self_logger ;;
  let line := [str_int (method_calls self); fstr dt;
               str_int size_total; str_int size_generated] in
  write (handle_methodcalls self) (join "," line ++ nl).

(** [function.counter]: (n_queried, dt, asked_for_derivative) entries. *)
Definition log_function_calls (counter : list (Z * num * bool)) : LM unit :=
  for_ counter (fun entry =>
    self <~ self_logger ;;
    let line := [str_int (method_calls self); str_int (fst (fst entry));
                 fstr (snd (fst entry)); str_bool (snd entry)] in
    write (handle_functioncalls self) (join "," line ++ nl)).

(** [bench] is the YAML text of the two benchmark measurements of [utils],
    or the error one of them raised. *)
Definition log_benchmarks (bench : result string) : LM unit :=
  self <~ self_logger ;;
  let p := basepath self ++ os_sep ++ "benchmarks.yaml" in
  fs <~ files ;;
  if path_exists p fs then ret tt else
  open_file p ;;;
  match bench with
  | Ok text => write p text ;;; close_file p
  | Raise e => close_file p ;;; raise e
  end.

(** [meta] is the YAML text of the experiment description, or the error
    raised while collecting it. *)
Definition log_experiment (meta : result string) : LM unit :=
  self <~ self_logger ;;
  let p := lpath self ++ os_sep ++ "experiment.yaml" in
  open_file p ;;;
  match meta with
  | Ok text => write p text ;;; close_file p
  | Raise e => close_file p ;;; raise e
  end.

(** ** Experiment: the control loop *)

(** What the collaborators answer during one pass of the loop. *)
Record Iteration : Type := {
  method_call : result (ndarray * ndarray);   (* [self.method(self.function)] *)
  dt : num;                                   (* elapsed time of that call *)
  counter : list (Z * num * bool);            (* [self.function.counter] *)
  reset : result unit;                        (* [self.function.reset()] *)
  is_finished : result bool                   (* [self.method.is_finished()] *)
}.

(** The experiment object with instance attributes [C] of its subclass,
    the file store and the text printed so far. *)
Record World (C : Type) : Type := {
  attrs : C;
  path : string;
  logger : option Logger;            (* [self.logger]; [None] is Python's None *)
  fs : gmap string file;
  stdout : list string
}.
Arguments attrs {C} w.
Arguments path {C} w.
Arguments logger {C} w.
Arguments fs {C} w.
Arguments stdout {C} w.

Section Loop.
Context {C : Type}.

(** [self._stop_experiment], as resolved on the class of [self]. *)
Variable _stop_experiment : ndarray -> ndarray -> M C bool.

(** [self.logger.<method>(...)] *)
Definition on_logger {A} (c : LM A) : M (World C) A :=
  fun w =>
    match logger w with
    | None => (w, Raise AttributeError)
    | Some l =>
        let '((l', fs'), r) := c (l, fs w) in
        ({| attrs := attrs w; path := path w; logger := Some l';
            fs := fs'; stdout := stdout w |}, r)
    end.

(** A method of the subclass run on [self]. *)
Definition on_self {A} (c : M C A) : M (World C) A :=
  fun w =>
    let '(a', r) := c (attrs w) in
    ({| attrs := a'; path := path w; logger := logger w;
        fs := fs w; stdout := stdout w |}, r).

Definition print (s : string) : M (World C) unit :=
  fun w => ({| attrs := attrs w; path := path w; logger := logger w;
               fs := fs w; stdout := stdout w ++ [s] |}, Ok tt).

(** [del (self.logger)]: the attribute held the only reference to the
    Logger, so CPython finalises the object at once and [__del__] runs. *)
Definition del_logger : M (World C) unit :=
  fun w =>
    match logger w with
    | None => (w, Raise AttributeError)
    | Some l =>
        ({| attrs := attrs w; path := path w; logger := None;
            fs := Logger_del l (fs w); stdout := stdout w |}, Ok tt)
    end.

(** How the [while] loop was left: by its condition, or because the script
    of collaborator answers ended while the loop was still running. *)
Inductive loop_exit : Type := Halted | ScriptEnded.

(** The body of [while not is_finished], up to the stopping check; returns
    the new [n_sampled] and the batch. *)
Definition iteration (log_data : bool) (it : Iteration) (n_sampled : Z)
  : M (World C) (Z * ndarray * ndarray) :=
  on_logger (update_self (fun self =>
               set_method_calls (method_calls self + 1) self)) ;;;
  xy <~ lift (method_call it) ;;
  let x := fst xy in
  let y := snd xy in
  let n := len x in
  let n_sampled := n_sampled + n in
  on_logger (log_method_calls (dt it) n_sampled n) ;;;
  (if log_data then on_logger (log_samples x y) else ret tt) ;;;
  on_logger (log_function_calls (counter it)) ;;;
  lift (reset it) ;;;
  ret (n_sampled, x, y).

(** [self.method.is_finished() or self._stop_experiment(x, y)] *)
Definition stopping_check (it : Iteration) (x y : ndarray) : M (World C) bool :=
  fin <~ lift (is_finished it) ;;
  if fin : bool then ret true else on_self (_stop_experiment x y).

Fixpoint while_not_finished (log_data : bool) (script : list Iteration)
  (n_sampled : Z) : M (World C) loop_exit :=
  match script with
  | [] => ret ScriptEnded
  | it :: script' =>
      r <~ iteration log_data it n_sampled ;;
      let '(n_sampled, x, y) := r in
      is_finished <~ stopping_check it x y ;;
      if is_finished : bool then ret Halted
      else while_not_finished log_data script' n_sampled
  end.

(** What [_perform_experiment] is run against. *)
Record Setting : Type := {
  method_name : string;              (* [type(self.method).__name__] *)
  function_name : string;            (* [type(function).__name__] *)
  function_is_TestFunction : bool;   (* [isinstance(function, TestFunction)] *)
  folder : string;                   (* result of [create_unique_folder] *)
  meta : result string;              (* what [log_experiment] dumps *)
  bench : result string;             (* what [log_benchmarks] dumps *)
  script : list Iteration
}.

Definition set_fs (fs' : gmap string file) : M (World C) unit :=
  fun w => ({| attrs := attrs w; path := path w; logger := logger w;
               fs := fs'; stdout := stdout w |}, Ok tt).

(** [self.logger = l] *)
Definition set_logger (l : Logger) : M (World C) unit :=
  fun w => ({| attrs := attrs w; path := path w; logger := Some l;
               fs := fs w; stdout := stdout w |}, Ok tt).

(** The message of the exception raised for a function that is not a
    TestFunction: the triple-quoted literal runs over two source lines. *)
Definition not_a_TestFunction_message : string :=
  "Provided function should have functions.TestFunction as" ++ nl
  ++ "                base class.".

Definition _perform_experiment (env : Setting) (log_data : bool)
  : M (World C) loop_exit :=
  print ("Run experiment for '" ++ method_name env ++ "' on function '"
         ++ function_name env ++ "'...") ;;;
  (if function_is_TestFunction env then ret tt else
     raise (Exception not_a_TestFunction_message)) ;;;
  w <~ get ;;
  (let '((l, fs'), r) := Logger_init (path w) (folder env) (fs w) in
   set_fs fs' ;;; lift r ;;; set_logger l) ;;;
  on_logger (log_experiment (meta env)) ;;;
  on_logger (log_benchmarks (bench env)) ;;;
  (* [self.function] and [self.method.function] are set here; what the
     collaborators then answer is in the script *)
  e <~ while_not_finished log_data (script env) 0 ;;
  match e with
  | Halted => del_logger ;;; ret Halted
  | ScriptEnded => ret ScriptEnded
  end.

End Loop.

(** ** The classes of the module and attribute lookup *)

Inductive pyclass : Type :=
| cls_Experiment
| cls_OptimisationExperiment
| cls_OptimizationExperiment
| cls_PosteriorSamplingExperiment.

(** The [def] statements of the three experiment classes. *)
Inductive funcdef : Type :=
| def_Experiment___init__
| def_Experiment__perform_experiment
| def_Experiment_run                          (* abstract *)
| def_Experiment__stop_experiment             (* abstract *)
| def_Optimisation_run
| def_Optimisation__stop_experiment
| def_Optimisation__sampled_since_last_improvement
| def_PosteriorSampling_run
| def_PosteriorSampling__stop_experiment.

Definition is_abstract_def (f : funcdef) : bool :=
  match f with
  | def_Experiment_run | def_Experiment__stop_experiment => true
  | _ => false
  end.

(** The functions a class body defines itself. *)
Definition class_dict (c : pyclass) : gmap string funcdef :=
  match c with
  | cls_Experiment =>
      <["__init__" := def_Experiment___init__]>
      (<["_perform_experiment" := def_Experiment__perform_experiment]>
      (<["run" := def_Experiment_run]>
      (<["_stop_experiment" := def_Experiment__stop_experiment]> ∅)))
  | cls_OptimisationExperiment =>
      <["run" := def_Optimisation_run]>
      (<["_stop_experiment" := def_Optimisation__stop_experiment]>
      (<["_sampled_since_last_improvement" :=
           def_Optimisation__sampled_since_last_improvement]> ∅))
  | cls_OptimizationExperiment => ∅            (* the body is [pass] *)
  | cls_PosteriorSamplingExperiment =>
      <["run" := def_PosteriorSampling_run]>
      (<["_stop_experiment" := def_PosteriorSampling__stop_experiment]> ∅)
  end.

Definition base (c : pyclass) : option pyclass :=
  match c with
  | cls_Experiment => None
  | cls_OptimisationExperiment => Some cls_Experiment
  | cls_OptimizationExperiment => Some cls_OptimisationExperiment
  | cls_PosteriorSamplingExperiment => Some cls_Experiment
  end.

Fixpoint linearize (depth : nat) (c : pyclass) : list pyclass :=
  match depth with
  | O => []
  | S d => c :: match base c with Some b => linearize d b | None => [] end
  end.

(** The method resolution order (single inheritance, at most three deep). *)
Definition mro (c : pyclass) : list pyclass := linearize 3 c.

(** Attribute lookup on an instance of [c]: the first class of the MRO
    whose body defines [name]. *)
Definition class_getattr (c : pyclass) (name : string) : option funcdef :=
  foldr (fun k rest => match class_dict k !! name with
                       | Some f => Some f
                       | None => rest
                       end) None (mro c).

(** A class with an unimplemented [@abstractmethod] cannot be instantiated. *)
Definition is_abstract (c : pyclass) : bool :=
  existsb (fun name => match class_getattr c name with
                       | Some f => is_abstract_def f
                       | None => false
                       end) ["run"; "_stop_experiment"].

(** Instance attributes beyond those of [Experiment.__init__]. *)
Inductive instance_attrs : Type :=
| NoAttrs
| OptimisationAttrs (o : OptimisationExperiment)
| PosteriorSamplingAttrs (p : PosteriorSamplingExperiment).

(** Arguments of a call of [run], defaults filled in. *)
Inductive run_args : Type :=
| OptimisationArgs (epsilon : num) (absolute_improvement : bool)
    (patience : Z) (finish_line : option Z) (log_data : bool)
| PosteriorSamplingArgs (finish_line : option Z) (log_data : bool).

Definition default_patience : Z := 100.
Definition default_finish_line : option Z := Some 1000.
Definition default_log_data : bool := true.

(** [self._stop_experiment(x, y)] on an instance of [c]. *)
Definition call__stop_experiment (c : pyclass) (x y : ndarray)
  : M instance_attrs bool :=
  match class_getattr c "_stop_experiment" with
  | Some def_Optimisation__stop_experiment =>
      match class_getattr c "_sampled_since_last_improvement" with
      | Some def_Optimisation__sampled_since_last_improvement =>
          fun s => match s with
                   | OptimisationAttrs o =>
                       let '(o', r) := Optimisation_stop_experiment x y o in
                       (OptimisationAttrs o', r)
                   | _ => (s, Raise AttributeError)
                   end
      | _ => raise AttributeError
      end
  | Some def_PosteriorSampling__stop_experiment =>
      fun s => match s with
               | PosteriorSamplingAttrs p =>
                   let '(p', r) := PosteriorSampling_stop_experiment x y p in
                   (PosteriorSamplingAttrs p', r)
               | _ => (s, Raise AttributeError)
               end
  | _ => raise AttributeError
  end.

(** [self._perform_experiment(function, log_data)] on an instance of [c]. *)
Definition call__perform_experiment (c : pyclass) (env : Setting)
  (log_data : bool) : M (World instance_attrs) loop_exit :=
  match class_getattr c "_perform_experiment" with
  | Some def_Experiment__perform_experiment =>
      _perform_experiment (call__stop_experiment c) env log_data
  | _ => raise AttributeError
  end.

Definition set_attrs (a : instance_attrs) : M (World instance_attrs) unit :=
  fun w => ({| attrs := a; path := path w; logger := logger w;
               fs := fs w; stdout := stdout w |}, Ok tt).

(** [self.run(...)] on an instance of [c]; arguments that do not fit the
    signature of the resolved [run] are a TypeError. *)
Definition call_run (c : pyclass) (args : run_args) (env : Setting)
  : M (World instance_attrs) loop_exit :=
  match class_getattr c "run", args with
  | Some def_Optimisation_run, OptimisationArgs e a p f log_data =>
      set_attrs (OptimisationAttrs
        {| epsilon := e; absolute_improvement := a; patience := p;
           finish_line := f; n_sampled := None; optimals := [] |}) ;;;
      call__perform_experiment c env log_data
  | Some def_PosteriorSampling_run, PosteriorSamplingArgs f log_data =>
      set_attrs (PosteriorSamplingAttrs
        {| ps_finish_line := f; ps_n_sampled := 0 |}) ;;;
      call__perform_experiment c env log_data
  | Some _, _ => raise TypeError
  | None, _ => raise AttributeError
  end.

(** The message of the exception raised for a method that is not a Method:
    the triple-quoted literal runs over two source lines. *)
Definition not_a_Method_message : string :=
  "SamplingExperiments should be provided an instance of a" ++ nl
  ++ "                class derived from the methods.Sampler class.".

(** [c(method, path)]: instantiation, through [Experiment.__init__]. *)
Definition new_experiment (c : pyclass) (method_is_Method : bool)
  (p : string) (fs0 : gmap string file) : result (World instance_attrs) :=
  if is_abstract c then Raise TypeError else
  match class_getattr c "__init__" with
  | Some def_Experiment___init__ =>
      if method_is_Method
      then Ok {| attrs := NoAttrs; path := p; logger := None;
                 fs := fs0; stdout := [] |}
      else Raise (Exception not_a_Method_message)
  | _ => Raise AttributeError
  end.

(** [c(method, path).run(...)] from the file store [fs0]. *)
Definition experiment_run (c : pyclass) (method_is_Method : bool)
  (p : string) (args : run_args) (env : Setting) (fs0 : gmap string file)
  : result (World instance_attrs * result loop_exit) :=
  match new_experiment c method_is_Method p fs0 with
  | Raise e => Raise e
  | Ok w => Ok (call_run c args env w)
  end.

(** ** Sequences of calls *)

(** The calls of a stopping criterion over consecutive batches, as the loop
    makes them while the method does not report itself finished: the
    sequence ends at the first call that signals stop or raises. *)
Fixpoint criterion_run {C} (stop : ndarray -> ndarray -> M C bool)
  (batches : list (ndarray * ndarray)) (self : C) : C * list (result bool) :=
  match batches with
  | [] => (self, [])
  | (x, y) :: batches' =>
      match stop x y self with
      | (self', Ok false) =>
          let '(self'', rs) := criterion_run stop batches' self' in
          (self'', Ok false :: rs)
      | (self', r) => (self', [r])
      end
  end.

(** Calls [log_samples(x, y)] on one Logger, each under its own
    [method_calls] value, with what each call returned or raised.  The
    control loop makes no further call after one that raised; a caller of
    the Logger that goes on after an error is covered too. *)
Fixpoint log_samples_calls (calls : list (Z * ndarray * ndarray))
  (s : Logger * gmap string file)
  : (Logger * gmap string file) * list (result unit) :=
  match calls with
  | [] => (s, [])
  | (id, x, y) :: calls' =>
      let '(s1, r) := log_samples x y (set_method_calls id (fst s), snd s) in
      let '(s2, rs) := log_samples_calls calls' s1 in
      (s2, r :: rs)
  end.

(** Lines of the samples stream that are header lines. *)
Definition is_header_line (s : string) : bool :=
  String.prefix "method_call_id" s.

(** What happens to the file store over several runs: a Logger calling
    [log_benchmarks], or some other path being written or removed. *)
Inductive activity : Type :=
| Benchmarks (l : Logger) (bench : result string)
| OtherFile (p : string) (f : option file).

Definition perform (a : activity) (fs : gmap string file) : gmap string file :=
  match a with
  | Benchmarks l bench => snd (fst (log_benchmarks bench (l, fs)))
  | OtherFile p (Some f) => <[p := f]> fs
  | OtherFile p None => delete p fs
  end.

Definition benchmarks_path (base : string) : string :=
  base ++ os_sep ++ "benchmarks.yaml".

(** An activity of a run under base path [base] that is not a write to the
    benchmarks file by other means. *)
Definition under_base (base : string) (a : activity) : Prop :=
  match a with
  | Benchmarks l _ => basepath l = base
  | OtherFile p _ => p <> benchmarks_path base
  end.

(** ** Open and closed streams *)

(** The stream files of a Logger on [folder]. *)
Definition stream_paths (folder : string) : list string :=
  [folder ++ os_sep ++ "samples.csv";
   folder ++ os_sep ++ "functioncalls.csv";
   folder ++ os_sep ++ "methodcalls.csv"].

(** The file at [h] exists and a file object on it is open / is not. *)
Definition file_state (open : bool) (h : string) (fs : gmap string file) : Prop :=
  exists f, fs !! h = Some f /\ is_open f = open.

(** The file at [h] is open and [w] is what has been written to it. *)
Definition open_stream (h : string) (w : list string)
  (fs : gmap string file) : Prop :=
  exists f, fs !! h = Some f /\ is_open f = true /\ written f = w.

Definition streams (open : bool) (folder : string) (fs : gmap string file)
  : Prop :=
  forall h, In h (stream_paths folder) -> file_state open h fs.

(** The handles of [l] are the stream files of [folder]. *)
Definition on_folder (folder : string) (l : Logger) : Prop :=
  [handle_samples l; handle_functioncalls l; handle_methodcalls l]
  = stream_paths folder.

(** A Logger method that leaves the handles in place and the streams open. *)
Definition keeps_streams (folder : string) {A} (c : LM A) : Prop :=
  forall l fs,
    on_folder folder l -> streams true folder fs ->
    on_folder folder (fst (fst (c (l, fs))))
    /\ streams true folder (snd (fst (c (l, fs)))).

(** The experiment holds a Logger on [folder] whose streams are open. *)
Definition logging {C} (folder : string) (w : World C) : Prop :=
  exists l, logger w = Some l /\ on_folder folder l
            /\ streams true folder (fs w).

Definition keeps_logging {C} (folder : string) {A} (c : M (World C) A) : Prop :=
  forall w, logging folder w -> logging folder (fst (c w)).

(** ** Running totals *)

(** [len(x)] of each batch of a sequence. *)
Definition batch_sizes (batches : list (ndarray * ndarray)) : list Z :=
  map (fun b => len (fst b)) batches.

Definition total (sizes : list Z) : Z := foldr Z.add 0 sizes.

(** The cumulative counts [start + s1], [start + s1 + s2], ... *)
Fixpoint running_totals (start : Z) (sizes : list Z) : list Z :=
  match sizes with
  | [] => []
  | s :: sizes' => (start + s) :: running_totals (start + s) sizes'
  end.

(** The cumulative count the Optimisation criterion has reached:
    [n_sampled[-1]], or 0 before the first call. *)
Definition points_counted (self : OptimisationExperiment) : Z :=
  match n_sampled self with
  | Some l => default 0 (last l)
  | None => 0
  end.

(** ** Method-call records *)





End Numeric.

Arguments attrs {C} w.
Arguments path {C} w.
Arguments logger {C} w.
Arguments fs {C} w.
Arguments stdout {C} w.

(** ** The worked scenario, over the rationals *)

(** [epsilon=0.1, absolute_improvement=True, patience=2] as [run] stores
    them.  The decimal literals differ from their binary doubles by less
    than 1e-15, and every comparison below is decided by a margin of 0.1 or
    more, so the rationals decide them as the doubles do. *)
Definition scenario (finish_line : option Z) : OptimisationExperiment :=
  {| epsilon := 1 # 10; absolute_improvement := true; patience := 2;
     finish_line := finish_line; n_sampled := None; optimals := [] |}.

(** One point per iteration; the minima are 10, 9, 8.95, 8.9. *)
Definition scenario_batches : list (ndarray * ndarray) :=
  map (fun v : Q => ([[0%Q]], [[v]])) [10 # 1; 9 # 1; 895 # 100; 89 # 10]%Q.

(** The criterion's state once all four batches are recorded. *)
Definition scenario_after_four (finish_line : option Z) : OptimisationExperiment :=
  {| epsilon := 1 # 10; absolute_improvement := true; patience := 2;
     finish_line := finish_line; n_sampled := Some [1; 2; 3; 4];
     optimals := [10 # 1; 9 # 1; 895 # 100; 89 # 10]%Q |}.

(** Four recorded iterations with optima 5, 3, 5, 4 after 10, 20, 30 and
    40 points. *)
Definition scan_example (absolute : bool) (eps : Q) : OptimisationExperiment :=
  {| epsilon := eps; absolute_improvement := absolute; patience := 2;
     finish_line := Some 1000; n_sampled := Some [10; 20; 30; 40];
     optimals := [5; 3; 5; 4]%Q |}.

(** A run whose method raises in its first call. *)
Definition failing_iteration : @Iteration Q :=
  {| method_call := Raise (ExternalError "method failed");
     dt := 0%Q; counter := []; reset := Ok tt; is_finished := Ok false |}.

Definition one_point_iteration (fin : bool) : @Iteration Q :=
  {| method_call := Ok ([[0%Q]], [[1%Q]]);
     dt := 0%Q; counter := [(1, 0%Q, false)]; reset := Ok tt;
     is_finished := Ok fin |}.

Definition setting_with (its : list (@Iteration Q)) : @Setting Q :=
  {| method_name := "RandomSearch"; function_name := "Sphere";
     function_is_TestFunction := true; folder := "out/sphere";
     meta := Ok "meta"; bench := Ok "benchmarks"; script := its |}.


Definition fresh_world {C} (a : C) : World C :=
  {| attrs := a; path := "out"; logger := None; fs := ∅; stdout := [] |}.

(** A Logger just constructed under base path [out], and an experiment
    holding it. *)
Definition fresh_logger : Logger * gmap string file :=
  fst (Logger_init "out" "out/sphere" ∅).

Definition logging_world {C} (a : C) : World C :=
  {| attrs := a; path := "out"; logger := Some (fst fresh_logger);
     fs := snd fresh_logger; stdout := [] |}.

(** * Theorems *)

(** ** Indexing and ranges *)

Lemma index_nat {A} (l : list A) (i : nat) :
  index l (Z.of_nat i) =
  match l !! i with Some a => Ok a | None => Raise IndexError end.
Proof.
  unfold index, py_index.
  destruct (Z.ltb_spec (Z.of_nat i) 0) as [Hneg|_]; [lia|].
  now rewrite Nat2Z.id.
Qed.

Lemma index_last {A} (l : list A) :
  index l (-1) =
  match last l with Some a => Ok a | None => Raise IndexError end.
Proof.
  unfold index, py_index, len. simpl (-1 <? 0).
  rewrite last_lookup.
  destruct l as [|a l]; [reflexivity|].
  destruct (Z.ltb_spec (Z.of_nat (length (a :: l)) + -1) 0) as [Hneg|_].
  - simpl in Hneg. lia.
  - replace (Z.to_nat (Z.of_nat (length (a :: l)) + -1))
      with (Nat.pred (length (a :: l))) by (simpl; lia).
    reflexivity.
Qed.

Lemma range_down_neg (k : Z) : k <= 0 -> range_down k 0 = [].
Proof.
  intros Hk. unfold range_down.
  replace (Z.to_nat (k - 0)) with 0%nat by lia. reflexivity.
Qed.

Lemma range_down_S (k : nat) :
  range_down (Z.of_nat (S k)) 0 = Z.of_nat (S k) :: range_down (Z.of_nat k) 0.
Proof.
  unfold range_down.
  replace (Z.to_nat (Z.of_nat (S k) - 0)) with (S k) by lia.
  replace (Z.to_nat (Z.of_nat k - 0)) with k by lia.
  cbn [seq map]. f_equal; try lia.
  rewrite <- seq_shift, map_map.
  apply map_ext. intros i. lia.
Qed.

Section CriterionTheorems.
Context {num : Type} `{PyFloat num}.

Implicit Types self : @OptimisationExperiment num.

Lemma scan_found self ns cut nl (k j : nat) nj :
  n_sampled self = Some ns -> last ns = Some nl ->
  (k < length (optimals self))%nat ->
  (1 <= j <= k)%nat -> improved self cut j ->
  (forall i, (j < i <= k)%nat -> ~ improved self cut i) ->
  ns !! j = Some nj ->
  scan self cut (range_down (Z.of_nat k) 0) = Ok (Some (nl - nj)).
Proof.
  intros Hns Hnl. induction k as [|k IH]; intros Hk Hj Himp Hlater Hnj; [lia|].
  rewrite range_down_S. cbn [scan]. rewrite index_nat.
  destruct (optimals self !! S k) as [ok|] eqn:Hok.
  2:{ apply lookup_ge_None in Hok. lia. }
  destruct (fgtb (condition self cut ok) (epsilon self)) eqn:Hc.
  - destruct (Nat.eq_dec j (S k)) as [->|Hne].
    + unfold n_sampled_at. rewrite Hns, index_last, Hnl, index_nat, Hnj.
      reflexivity.
    + exfalso. apply (Hlater (S k)); [lia|]. exists ok. auto.
  - destruct (Nat.eq_dec j (S k)) as [->|Hne].
    + destruct Himp as (oj & Hoj & Hcj). congruence.
    + apply IH; auto; try lia. intros i Hi. apply Hlater. lia.
Qed.

Lemma scan_none self cut (k : nat) :
  (k < length (optimals self))%nat ->
  (forall i, (1 <= i <= k)%nat -> ~ improved self cut i) ->
  scan self cut (range_down (Z.of_nat k) 0) = Ok None.
Proof.
  induction k as [|k IH]; intros Hk Hnone.
  - reflexivity.
  - rewrite range_down_S. cbn [scan]. rewrite index_nat.
    destruct (optimals self !! S k) as [ok|] eqn:Hok.
    2:{ apply lookup_ge_None in Hok. lia. }
    destruct (fgtb (condition self cut ok) (epsilon self)) eqn:Hc.
    + exfalso. apply (Hnone (S k)); [lia|]. exists ok. auto.
    + apply IH; [lia|]. intros i Hi. apply Hnone. lia.
Qed.

Lemma scan_total self ns cut (k : nat) :
  n_sampled self = Some ns -> length ns = length (optimals self) ->
  (k < length (optimals self))%nat ->
  exists r, scan self cut (range_down (Z.of_nat k) 0) = Ok r.
Proof.
  intros Hns Hlen. induction k as [|k IH]; intros Hk.
  - eexists. reflexivity.
  - rewrite range_down_S. cbn [scan]. rewrite index_nat.
    destruct (optimals self !! S k) as [ok|] eqn:Hok.
    2:{ apply lookup_ge_None in Hok. lia. }
    destruct (fgtb (condition self cut ok) (epsilon self)).
    + unfold n_sampled_at. rewrite Hns, index_last, index_nat.
      destruct (last ns) as [nl|] eqn:Hl.
      2:{ apply last_None in Hl. subst ns. simpl in Hlen. lia. }
      destruct (ns !! S k) as [nk|] eqn:Hnk.
      2:{ apply lookup_ge_None in Hnk. lia. }
      eexists. reflexivity.
    + apply IH. lia.
Qed.

(** The start index [len(self.optimals) - 2] of the scan. *)
Lemma scan_start self :
  range_down (len (optimals self) - 2) 0 =
  range_down (Z.of_nat (length (optimals self) - 2)) 0.
Proof.
  unfold len. destruct (le_lt_dec 2 (length (optimals self))) as [Hge|Hlt].
  - f_equal. lia.
  - rewrite range_down_neg by lia.
    replace (length (optimals self) - 2)%nat with 0%nat by lia. reflexivity.
Qed.

(** C6. In a state with as many [n_sampled] as [optimals] entries (at
    least one), with [cut] the latest optimum: an index [j] passes when
    [cut - optimals[j]] (if [absolute_improvement]) or [optimals[j] / cut]
    (otherwise) is greater than [epsilon].
    [_sampled_since_last_improvement] returns
    [n_sampled[-1] - n_sampled[j]] for the greatest index [j] with
    [1 <= j <= len - 2] that passes, returns
    [n_sampled[-1] - n_sampled[0]] when no index in that range does, and
    never raises: entries 0 and [len - 1] are not candidates. *)
Theorem sampled_since_last_improvement_scan self ns cut nl :
  n_sampled self = Some ns ->
  length ns = length (optimals self) ->
  last (optimals self) = Some cut ->
  last ns = Some nl ->
  let scanned j := (1 <= j <= length (optimals self) - 2)%nat in
  let passes j :=
    exists oj, optimals self !! j = Some oj
               /\ fgtb (if absolute_improvement self
                        then fsub cut oj else fdiv oj cut)
                       (epsilon self) = true in
  (forall j nj,
      scanned j -> passes j ->
      (forall i, scanned i -> (j < i)%nat -> ~ passes i) ->
      ns !! j = Some nj ->
      _sampled_since_last_improvement self = Ok (nl - nj))
  /\ (forall n0,
      (forall i, scanned i -> ~ passes i) ->
      ns !! 0%nat = Some n0 ->
      _sampled_since_last_improvement self = Ok (nl - n0))
  /\ (exists r, _sampled_since_last_improvement self = Ok r).
Proof.
  intros Hns Hlen Hcut Hnl scanned passes.
  assert (Hpass : forall j, passes j <-> improved self cut j).
  { intros j. unfold passes, improved, condition. reflexivity. }
  assert (Hpos : (0 < length (optimals self))%nat).
  { destruct (optimals self); [discriminate|simpl; lia]. }
  unfold _sampled_since_last_improvement.
  rewrite index_last, Hcut, scan_start.
  split; [|split].
  - intros j nj Hj Himp Hlater Hnj. apply Hpass in Himp.
    erewrite scan_found; eauto; try (unfold scanned in *; lia).
    intros i Hi Hi'. apply Hpass in Hi'. revert Hi'.
    apply Hlater; unfold scanned in *; lia.
  - intros n0 Hnone Hn0.
    rewrite scan_none; [|lia|].
    2:{ intros i Hi Hi'. apply Hpass in Hi'. revert Hi'. now apply Hnone. }
    unfold n_sampled_at. rewrite Hns, index_last, Hnl.
    change 0 with (Z.of_nat 0). rewrite index_nat, Hn0. reflexivity.
  - destruct (scan_total self ns cut (length (optimals self) - 2) Hns Hlen)
      as [[r|] Hr]; [lia| |]; rewrite Hr.
    + eexists. reflexivity.
    + unfold n_sampled_at. rewrite Hns, index_last, Hnl.
      change 0 with (Z.of_nat 0). rewrite index_nat.
      destruct (ns !! 0%nat) as [n0|] eqn:Hn0.
      2:{ apply lookup_ge_None in Hn0. lia. }
      eexists. reflexivity.
Qed.

(** One evaluation of the Optimisation criterion below the hard cap. *)
Lemma Optimisation_stop_first self fl (x y : @ndarray num) m since :
  finish_line self = Some fl -> n_sampled self = None ->
  (fl <? len x) = false -> np_min y = Ok m ->
  let self' := set_optimals (optimals self ++ [m]) (set_n_sampled [len x] self) in
  _sampled_since_last_improvement self' = Ok since ->
  Optimisation_stop_experiment x y self = (self', Ok (patience self <? since)).
Proof.
  intros Hfl Hns Hcap Hmin self' Hsince.
  unfold Optimisation_stop_experiment, bind, get, put, lift, ret.
  rewrite Hns. unfold n_sampled_at. cbn [set_n_sampled n_sampled finish_line].
  change (index [len x] (-1)) with (Ok (len x)).
  rewrite Hfl. cbn [int_gt]. rewrite Hcap, Hmin.
  subst self'. unfold set_optimals, set_n_sampled in *.
  cbn [epsilon absolute_improvement patience finish_line n_sampled optimals] in *.
  rewrite Hsince.
  destruct (patience self <? since); reflexivity.
Qed.

Lemma Optimisation_stop_next self fl l t (x y : @ndarray num) m since :
  finish_line self = Some fl -> n_sampled self = Some l -> last l = Some t ->
  (fl <? t + len x) = false -> np_min y = Ok m ->
  let self' := set_optimals (optimals self ++ [m])
                 (set_n_sampled (l ++ [t + len x]) self) in
  _sampled_since_last_improvement self' = Ok since ->
  Optimisation_stop_experiment x y self = (self', Ok (patience self <? since)).
Proof.
  intros Hfl Hns Hlast Hcap Hmin self' Hsince.
  unfold Optimisation_stop_experiment, bind, get, put, lift, ret.
  rewrite Hns, index_last, Hlast.
  unfold n_sampled_at. cbn [set_n_sampled n_sampled finish_line].
  rewrite index_last, last_snoc, Hfl. cbn [int_gt]. rewrite Hcap, Hmin.
  subst self'. unfold set_optimals, set_n_sampled in *.
  cbn [epsilon absolute_improvement patience finish_line n_sampled optimals] in *.
  rewrite Hsince.
  destruct (patience self <? since); reflexivity.
Qed.

(** The states in which the scan is evaluated during a run have as many
    [n_sampled] as [optimals] entries: [run] starts from none of either, and
    a call that answers [False] has added one to each. *)
Lemma stop_keeps_lengths self (x y : @ndarray num) self' :
  (n_sampled self = None /\ optimals self = []) \/
  (exists ns, n_sampled self = Some ns /\ length ns = length (optimals self)) ->
  Optimisation_stop_experiment x y self = (self', Ok false) ->
  exists ns', n_sampled self' = Some ns'
              /\ length ns' = length (optimals self').
Proof.
  intros Hinv Hstep.
  unfold Optimisation_stop_experiment, bind, get, put, lift, ret in Hstep.
  destruct Hinv as [[Hn Ho]|(ns & Hn & Hlen)]; rewrite Hn in Hstep.
  - destruct (n_sampled_at (set_n_sampled [len x] self) (-1)) as [last|e];
      [|discriminate].
    destruct (int_gt last (finish_line (set_n_sampled [len x] self)))
      as [[|]|e]; try discriminate.
    destruct (np_min y) as [m|e]; [|discriminate].
    destruct (_sampled_since_last_improvement _) as [since|e]; [|discriminate].
    destruct (patience _ <? since); [discriminate|].
    injection Hstep as <-. exists [len x]. simpl. rewrite Ho. auto.
  - destruct (index ns (-1)) as [a0|e]; [|discriminate].
    destruct (n_sampled_at (set_n_sampled (ns ++ [a0 + len x]) self) (-1))
      as [last|e]; [|discriminate].
    destruct (int_gt last
                (finish_line (set_n_sampled (ns ++ [a0 + len x]) self)))
      as [[|]|e]; try discriminate.
    destruct (np_min y) as [m|e]; [|discriminate].
    destruct (_sampled_since_last_improvement _) as [since|e]; [|discriminate].
    destruct (patience _ <? since); [discriminate|].
    injection Hstep as <-. exists (ns ++ [a0 + len x])%list. simpl.
    split; [reflexivity|]. rewrite !length_app. simpl. lia.
Qed.

(** One evaluation of the PosteriorSampling criterion. *)
Lemma PosteriorSampling_stop_numeric (fl n : Z) (x y : @ndarray num) :
  PosteriorSampling_stop_experiment x y
    {| ps_finish_line := Some fl; ps_n_sampled := n |}
  = ({| ps_finish_line := Some fl; ps_n_sampled := n + len x |},
     Ok (fl <=? n + len x)).
Proof.
  unfold PosteriorSampling_stop_experiment, bind, get, put, lift, ret.
  simpl. destruct (fl <=? n + len x); reflexivity.
Qed.

(** C7. With a numeric [finish_line], the PosteriorSampling criterion adds
    [len(x)] to its running total and returns [True] exactly when the new
    total has reached [finish_line]; with [finish_line = 100] and batches of
    40, 40 and 30 points it answers [False], [False], [True]. *)
Theorem posterior_sampling_stops_at_finish_line :
  (forall (fl n : Z) (x y : @ndarray num),
      PosteriorSampling_stop_experiment x y
        {| ps_finish_line := Some fl; ps_n_sampled := n |}
      = ({| ps_finish_line := Some fl; ps_n_sampled := n + len x |},
         Ok (fl <=? n + len x)))
  /\ (forall b1 b2 b3 : @ndarray num * @ndarray num,
      len (fst b1) = 40 -> len (fst b2) = 40 -> len (fst b3) = 30 ->
      criterion_run PosteriorSampling_stop_experiment [b1; b2; b3]
        {| ps_finish_line := Some 100; ps_n_sampled := 0 |}
      = ({| ps_finish_line := Some 100; ps_n_sampled := 110 |},
         [Ok false; Ok false; Ok true])).
Proof.
  assert (Hstep : forall (fl n : Z) (x y : @ndarray num),
      PosteriorSampling_stop_experiment x y
        {| ps_finish_line := Some fl; ps_n_sampled := n |}
      = ({| ps_finish_line := Some fl; ps_n_sampled := n + len x |},
         Ok (fl <=? n + len x))).
  { intros fl n x y. unfold PosteriorSampling_stop_experiment, bind, get, put, lift, ret.
    simpl. destruct (fl <=? n + len x); reflexivity. }
  split; [exact Hstep|].
  intros [x1 y1] [x2 y2] [x3 y3] H1 H2 H3. simpl in H1, H2, H3.
  cbn [criterion_run]. rewrite Hstep, H1. simpl.
  rewrite Hstep, H2. simpl. rewrite Hstep, H3. reflexivity.
Qed.

(** C2. With [finish_line = None] the first evaluation of either criterion
    raises TypeError at the comparison with [finish_line]: the
    Optimisation criterion at [n_sampled[-1] > None], the PosteriorSampling
    criterion at [n_sampled >= None]. *)
Theorem finish_line_None_raises_TypeError :
  (forall (eps : num) (absolute : bool) (pat : Z) (x y : @ndarray num),
      snd (Optimisation_stop_experiment x y
             {| epsilon := eps; absolute_improvement := absolute;
                patience := pat; finish_line := None;
                n_sampled := None; optimals := [] |})
      = Raise TypeError)
  /\ (forall (n : Z) (x y : @ndarray num),
      snd (PosteriorSampling_stop_experiment x y
             {| ps_finish_line := None; ps_n_sampled := n |})
      = Raise TypeError).
Proof.
  split; intros; reflexivity.
Qed.

(** C4, as the code has it. On an empty batch the PosteriorSampling
    criterion (numeric [finish_line]) does not raise: it returns whether the
    unchanged total has reached [finish_line].  The Optimisation criterion
    (numeric [finish_line]) returns [True] when the cumulative count already
    exceeds [finish_line], and otherwise raises ValueError at [np.min(y)]. *)
Theorem empty_batch_criteria :
  (forall fl n : Z,
      snd (PosteriorSampling_stop_experiment (num:=num) [] []
             {| ps_finish_line := Some fl; ps_n_sampled := n |})
      = Ok (fl <=? n))
  /\ (forall (eps : num) (absolute : bool) (pat fl : Z),
      snd (Optimisation_stop_experiment [] []
             {| epsilon := eps; absolute_improvement := absolute;
                patience := pat; finish_line := Some fl;
                n_sampled := None; optimals := [] |})
      = if fl <? 0 then Ok true else Raise ValueError)
  /\ (forall (eps : num) (absolute : bool) (pat fl : Z) (ns : list Z) (total : Z) (os : list num),
      snd (Optimisation_stop_experiment [] []
             {| epsilon := eps; absolute_improvement := absolute;
                patience := pat; finish_line := Some fl;
                n_sampled := Some (ns ++ [total])%list; optimals := os |})
      = if fl <? total then Ok true else Raise ValueError).
Proof.
  split; [|split].
  - intros fl n.
    rewrite PosteriorSampling_stop_numeric. simpl. now rewrite Z.add_0_r.
  - intros eps absolute pat fl.
    unfold Optimisation_stop_experiment, bind, get, put, lift, ret, len. simpl.
    change (Z.of_nat 0) with 0. destruct (fl <? 0); reflexivity.
  - intros eps absolute pat fl ns total os.
    unfold Optimisation_stop_experiment, bind, get, put, lift, ret.
    cbn [n_sampled]. rewrite index_last, last_snoc.
    unfold n_sampled_at, set_n_sampled. cbn [n_sampled finish_line].
    rewrite index_last, last_snoc. unfold len. cbn [length].
    change (Z.of_nat 0) with 0. rewrite Z.add_0_r. unfold int_gt.
    destruct (fl <? total); reflexivity.
Qed.

End CriterionTheorems.

(** ** The worked scenario *)

(** C1, as the code has it. With a numeric [finish_line] of at least 4, the
    criterion answers [False] three times and [True] at the fourth
    iteration: the scan over entries 2 and 1 finds no measure
    [cut - optimals[i]] above 0.1 (they are -0.05 and -0.1), so
    [_sampled_since_last_improvement] is [n_sampled[3] - n_sampled[0] = 3],
    which exceeds [patience = 2]. *)
Theorem scenario_stops_at_fourth_iteration (fl : Z) :
  4 <= fl ->
  criterion_run Optimisation_stop_experiment scenario_batches
    (scenario (Some fl))
  = (scenario_after_four (Some fl), [Ok false; Ok false; Ok false; Ok true])
  /\ _sampled_since_last_improvement (scenario_after_four (Some fl)) = Ok 3.
Proof.
  intros Hfl. split; [|reflexivity].
  unfold scenario_batches. cbn [map criterion_run].
  rewrite (Optimisation_stop_first (scenario (Some fl)) fl _ _ (10 # 1)%Q 0);
    [|reflexivity|reflexivity|change (len [[0%Q]]) with 1; lia
     |reflexivity|reflexivity].
  cbn [Z.ltb Z.compare patience scenario].
  rewrite (Optimisation_stop_next _ fl [1] 1 _ _ (9 # 1)%Q 1);
    [|reflexivity|reflexivity|reflexivity|change (len [[0%Q]]) with 1; lia
     |reflexivity|reflexivity].
  cbn [Z.ltb Z.compare Pos.compare Pos.compare_cont patience scenario set_optimals set_n_sampled].
  rewrite (Optimisation_stop_next _ fl [1; 2] 2 _ _ (895 # 100)%Q 2);
    [|reflexivity|reflexivity|reflexivity|change (len [[0%Q]]) with 1; lia
     |reflexivity|reflexivity].
  cbn [Z.ltb Z.compare Pos.compare Pos.compare_cont patience scenario set_optimals set_n_sampled].
  rewrite (Optimisation_stop_next _ fl [1; 2; 3] 3 _ _ (89 # 10)%Q 3);
    [|reflexivity|reflexivity|reflexivity|change (len [[0%Q]]) with 1; lia
     |reflexivity|reflexivity].
  reflexivity.
Qed.

(** The scenario with a large numeric [finish_line]. *)
Lemma scenario_stops_at_fourth_iteration_witness :
  4 <= 1000 /\
  (criterion_run Optimisation_stop_experiment scenario_batches
     (scenario (Some 1000))
   = (scenario_after_four (Some 1000),
      [Ok false; Ok false; Ok false; Ok true])
   /\ _sampled_since_last_improvement (scenario_after_four (Some 1000)) = Ok 3).
Proof.
  split; [lia|]. apply (scenario_stops_at_fourth_iteration 1000). lia.
Defined.

(** C1 as stated fails on the code. With [finish_line = None] the first
    evaluation raises TypeError, so no fourth answer exists; and in the
    state the claim describes the scan returns 3, not 2, which exceeds
    [patience]. *)
Lemma scenario_as_claimed_fails :
  snd (criterion_run Optimisation_stop_experiment scenario_batches
         (scenario None)) = [Raise TypeError]
  /\ _sampled_since_last_improvement (scenario_after_four None) = Ok 3
  /\ _sampled_since_last_improvement (scenario_after_four None) <> Ok 2
  /\ (patience (scenario_after_four None)
      <? 3) = true.
Proof.
  split; [reflexivity|]. split; [reflexivity|]. split; [discriminate|reflexivity].
Qed.

(** C4 as stated fails on the code: on an empty first batch the
    Optimisation criterion raises (ValueError, from [np.min]). *)
Lemma empty_batch_raises_in_Optimisation :
  snd (Optimisation_stop_experiment [] [] (scenario (Some 1000)))
  = Raise ValueError
  /\ is_raise (snd (Optimisation_stop_experiment [] [] (scenario (Some 1000))))
     = true.
Proof.
  split; reflexivity.
Qed.

(** Batches of 40, 40 and 30 points for the PosteriorSampling criterion. *)
Lemma posterior_sampling_stops_at_finish_line_witness :
  criterion_run PosteriorSampling_stop_experiment
    [(replicate 40 [0%Q], replicate 40 [1%Q]);
     (replicate 40 [0%Q], replicate 40 [1%Q]);
     (replicate 30 [0%Q], replicate 30 [1%Q])]
    {| ps_finish_line := Some 100; ps_n_sampled := 0 |}
  = ({| ps_finish_line := Some 100; ps_n_sampled := 110 |},
     [Ok false; Ok false; Ok true]).
Proof.
  apply (proj2 (posterior_sampling_stops_at_finish_line (num:=Q)));
    reflexivity.
Defined.

(** The scan theorem on three states.  Absolute mode, optima 5, 3, 5, 4:
    entry 2 does not pass (4 - 5), entry 1 does (4 - 3), so the count is
    taken from entry 1.  Ratio mode on the same optima with [epsilon] 1:
    entry 2 passes (5 / 4).  The scenario's final state: entries 1 and 2 do
    not pass, so the count is taken from entry 0. *)
Lemma sampled_since_last_improvement_scan_witness :
  _sampled_since_last_improvement (scan_example true (1 # 10)%Q) = Ok (40 - 20)
  /\ _sampled_since_last_improvement (scan_example false 1%Q) = Ok (40 - 30)
  /\ _sampled_since_last_improvement (scenario_after_four (Some 1000))
     = Ok (4 - 1).
Proof.
  split; [|split].
  - refine (proj1 (sampled_since_last_improvement_scan
              (scan_example true (1 # 10)%Q) [10; 20; 30; 40] 4%Q 40
              eq_refl eq_refl eq_refl eq_refl) 1%nat 20 _ _ _ eq_refl).
    + simpl. lia.
    + exists 3%Q. split; reflexivity.
    + intros i [Hlo Hhi] Hlt (oj & Hoj & Hc). simpl in Hhi.
      destruct i as [|[|[|i]]]; try lia; simpl in Hoj;
        injection Hoj as <-; discriminate Hc.
  - refine (proj1 (sampled_since_last_improvement_scan
              (scan_example false 1%Q) [10; 20; 30; 40] 4%Q 40
              eq_refl eq_refl eq_refl eq_refl) 2%nat 30 _ _ _ eq_refl).
    + simpl. lia.
    + exists 5%Q. split; reflexivity.
    + intros i [Hlo Hhi] Hlt. simpl in Hhi. lia.
  - refine (proj1 (proj2 (sampled_since_last_improvement_scan
              (scenario_after_four (Some 1000)) [1; 2; 3; 4] (89 # 10)%Q 4
              eq_refl eq_refl eq_refl eq_refl)) 1 _ eq_refl).
    intros i [Hlo Hhi] (oj & Hoj & Hc). simpl in Hhi.
    destruct i as [|[|[|i]]]; try lia; simpl in Hoj;
      injection Hoj as <-; discriminate Hc.
Defined.

(** ** Files and the Logger *)

Lemma write_open (l : Logger) (fs : gmap string file) p s c b :
  fs !! p = Some {| content := c; pending := b; is_open := true |} ->
  write p s (l, fs)
  = ((l, <[p := {| content := c; pending := b ++ [s]; is_open := true |}]> fs),
     Ok tt).
Proof.
  intros Hp. unfold write, write_to. simpl.
  rewrite Hp. reflexivity.
Qed.

Lemma log_benchmarks_present (l : Logger) bench (fs : gmap string file) :
  path_exists (benchmarks_path (basepath l)) fs = true ->
  log_benchmarks bench (l, fs) = ((l, fs), Ok tt).
Proof.
  intros Hex. unfold log_benchmarks, bind, self_logger, files. simpl.
  unfold benchmarks_path in Hex. rewrite Hex. reflexivity.
Qed.

Lemma log_benchmarks_absent (l : Logger) bench (fs : gmap string file) :
  fs !! benchmarks_path (basepath l) = None ->
  snd (fst (log_benchmarks bench (l, fs))) !! benchmarks_path (basepath l)
  = Some {| content := match bench with Ok text => [text] | Raise _ => [] end;
            pending := []; is_open := false |}.
Proof.
  intros Hno. unfold log_benchmarks, bind, self_logger, files. simpl.
  unfold path_exists. fold (benchmarks_path (basepath l)). rewrite Hno.
  unfold open_file, close_file, open_w. simpl.
  destruct bench as [text|e].
  - erewrite write_open by apply lookup_insert_eq. simpl.
    unfold close. rewrite lookup_alter_eq, lookup_insert_eq. reflexivity.
  - simpl. unfold close, raise. simpl.
    rewrite lookup_alter_eq, lookup_insert_eq. reflexivity.
Qed.

Lemma perform_keeps_benchmarks base a (fs : gmap string file) f :
  under_base base a ->
  fs !! benchmarks_path base = Some f ->
  perform a fs !! benchmarks_path base = Some f.
Proof.
  intros Ha Hf. destruct a as [l bench|p [g|]]; simpl in *.
  - subst base. rewrite log_benchmarks_present; [exact Hf|].
    unfold path_exists. now rewrite Hf.
  - now rewrite lookup_insert_ne.
  - now rewrite lookup_delete_ne.
Qed.

(** C9. When the benchmarks file exists under the Logger's base path,
    [log_benchmarks] returns at once and changes nothing.  When it does not
    exist, the call creates it (holding the dumped measurements); and
    whatever follows under the same base path -- further [log_benchmarks]
    calls of any Logger with that base path, writes to other files --
    leaves that file as the first call wrote it. *)
Theorem benchmarks_written_once (l : Logger) bench (fs : gmap string file)
  (later : list activity) :
  Forall (under_base (basepath l)) later ->
  (path_exists (benchmarks_path (basepath l)) fs = true ->
   log_benchmarks bench (l, fs) = ((l, fs), Ok tt))
  /\ (fs !! benchmarks_path (basepath l) = None ->
      let first := {| content := match bench with
                                 | Ok text => [text] | Raise _ => [] end;
                      pending := []; is_open := false |} in
      perform (Benchmarks l bench) fs !! benchmarks_path (basepath l)
      = Some first
      /\ foldl (fun fs a => perform a fs) (perform (Benchmarks l bench) fs) later
         !! benchmarks_path (basepath l) = Some first).
Proof.
  intros Hlater. split; [apply log_benchmarks_present|].
  intros Hno first.
  assert (Hfirst : perform (Benchmarks l bench) fs
                   !! benchmarks_path (basepath l) = Some first)
    by (apply log_benchmarks_absent; exact Hno).
  split; [exact Hfirst|].
  revert Hfirst. generalize (perform (Benchmarks l bench) fs).
  induction Hlater as [|a later Ha _ IH]; intros fs1 Hfs1; [exact Hfs1|].
  simpl. apply IH. now apply perform_keeps_benchmarks.
Qed.

(** *** The samples stream *)

Lemma str_int_head (z : Z) :
  exists c s, str_int z = String c s /\ c <> "m"%char.
Proof.
  unfold str_int, NilZero.string_of_int.
  destruct (Z.to_int z) as [d|d].
  - destruct d; simpl; eexists _, _; (split; [reflexivity|discriminate]).
  - eexists _, _; (split; [reflexivity|discriminate]).
Qed.

Lemma samples_line_not_header id point label :
  is_header_line (samples_line id point label) = false.
Proof.
  unfold samples_line, join.
  destruct (str_int_head id) as (c & s & Hs & Hc).
  assert (Hcat : exists t, String.concat "," ([str_int id] ++ point ++ label)
                           = String c t).
  { simpl. destruct (point ++ label)%list; rewrite Hs; simpl; eauto. }
  destruct Hcat as [t ->]. unfold is_header_line.
  change (String c t ++ nl) with (String c (t ++ nl)).
  cbn [String.prefix].
  destruct (ascii_dec "m" c) as [E|E]; [congruence|reflexivity].
Qed.

Section SamplesStream.
Context {num : Type} `{PyFloat num}.

Lemma samples_header_is_header (x0 y0 : list num) :
  is_header_line (samples_header x0 y0) = true.
Proof.
  unfold samples_header, join, is_header_line.
  cbn [app String.concat].
  destruct (map _ (range (len x0)) ++ map _ (range (len y0)))%list;
    reflexivity.
Qed.

(** The header line, column by column. *)
Lemma samples_header_columns (x0 y0 : list num) :
  samples_header x0 y0
  = String.concat ","
      (["method_call_id"]
       ++ map (fun i => "x" ++ str_int (Z.of_nat i)) (seq 0 (length x0))
       ++ map (fun i => "y" ++ str_int (Z.of_nat i)) (seq 0 (length y0)))
    ++ nl.
Proof.
  unfold samples_header, join, range, len.
  now rewrite !Nat2Z.id, !map_map.
Qed.

Lemma write_stream (l : Logger) (fs : gmap string file) h w text :
  open_stream h w fs ->
  exists fs', write h text (l, fs) = ((l, fs'), Ok tt)
              /\ open_stream h (w ++ [text]) fs'.
Proof.
  intros ([c b o] & Hf & Ho & Hw). simpl in Ho, Hw. subst o w.
  rewrite (write_open l fs h text c b Hf). eexists. split; [reflexivity|].
  eexists. rewrite lookup_insert_eq. split; [reflexivity|].
  split; [reflexivity|]. unfold written. simpl. now rewrite app_assoc.
Qed.

Lemma flush_stream (l : Logger) (fs : gmap string file) h w :
  open_stream h w fs ->
  exists fs', flush_file h (l, fs) = ((l, fs'), Ok tt) /\ open_stream h w fs'.
Proof.
  intros (f & Hf & Ho & Hw). unfold flush_file, flush_to. simpl.
  rewrite Hf, Ho. eexists. split; [reflexivity|].
  eexists. rewrite lookup_insert_eq. split; [reflexivity|].
  split; [reflexivity|]. unfold written in *. simpl. now rewrite app_nil_r.
Qed.

(** The loop over the data points of one call. *)
Lemma rows_loop (points labels : list (list string)) (idx : list Z)
  (l : Logger) (fs : gmap string file) w :
  open_stream (handle_samples l) w fs ->
  exists rows fs' r,
    for_ idx (fun i =>
      self <~ self_logger ;;
      point <~ lift (index points i) ;;
      label <~ lift (index labels i) ;;
      write (handle_samples self)
            (samples_line (method_calls self) point label)) (l, fs)
    = ((l, fs'), r)
    /\ open_stream (handle_samples l) (w ++ rows) fs'
    /\ Forall (fun s => is_header_line s = false) rows.
Proof.
  revert fs w. induction idx as [|i idx IH]; intros fs w Hw.
  - exists [], fs, (Ok tt). rewrite app_nil_r. repeat split; auto.
  - cbn [for_]. unfold bind at 1. unfold bind at 1. unfold self_logger at 1.
    cbn [fst snd]. unfold bind at 1, lift at 1.
    destruct (index points i) as [point|e].
    2:{ exists [], fs, (Raise e). rewrite app_nil_r. repeat split; auto. }
    unfold bind at 1, lift at 1.
    destruct (index labels i) as [label|e].
    2:{ exists [], fs, (Raise e). rewrite app_nil_r. repeat split; auto. }
    destruct (write_stream l fs (handle_samples l) w
                (samples_line (method_calls l) point label) Hw)
      as (fs1 & Hwrite & Hw1).
    rewrite Hwrite.
    destruct (IH fs1 _ Hw1) as (rows & fs' & r & Hrun & Hfs' & Hrows).
    exists (samples_line (method_calls l) point label :: rows), fs', r.
    split; [exact Hrun|]. split.
    + now rewrite <- app_assoc in Hfs'.
    + constructor; [apply samples_line_not_header|exact Hrows].
Qed.

(** The loop and the closing [flush()]. *)
Lemma rows_and_flush (points labels : list (list string)) (idx : list Z)
  (l : Logger) (fs : gmap string file) w :
  open_stream (handle_samples l) w fs ->
  exists rows fs' r,
    (for_ idx (fun i =>
       self <~ self_logger ;;
       point <~ lift (index points i) ;;
       label <~ lift (index labels i) ;;
       write (handle_samples self)
             (samples_line (method_calls self) point label)) ;;;
     self <~ self_logger ;;
     flush_file (handle_samples self)) (l, fs)
    = ((l, fs'), r)
    /\ open_stream (handle_samples l) (w ++ rows) fs'
    /\ Forall (fun s => is_header_line s = false) rows.
Proof.
  intros Hw.
  destruct (rows_loop points labels idx l fs w Hw)
    as (rows & fs1 & r & Hrun & Hw1 & Hrows).
  unfold bind at 1. rewrite Hrun. destruct r as [[]|e].
  - unfold bind at 1. unfold self_logger at 1. cbn [fst snd].
    destruct (flush_stream l fs1 _ _ Hw1) as (fs' & Hflush & Hw').
    rewrite Hflush. exists rows, fs', (Ok tt). auto.
  - exists rows, fs1, (Raise e). auto.
Qed.

Lemma log_samples_no_header (l : Logger) (fs : gmap string file)
  (x y : @ndarray num) w :
  create_samples_header l = false ->
  open_stream (handle_samples l) w fs ->
  exists rows fs' r,
    log_samples x y (l, fs) = ((l, fs'), r)
    /\ open_stream (handle_samples l) (w ++ rows) fs'
    /\ Forall (fun s => is_header_line s = false) rows.
Proof.
  intros Hflag Hw. unfold log_samples.
  unfold bind at 1. unfold self_logger at 1. cbn [fst snd].
  rewrite Hflag. unfold bind at 1. unfold ret at 1.
  apply rows_and_flush. exact Hw.
Qed.

(** With the header pending, a batch without a first input row or without
    a first output row raises at [x[0]] or [y[0]], before anything is
    written. *)
Lemma log_samples_no_point (l : Logger) (fs : gmap string file)
  (x y : @ndarray num) :
  create_samples_header l = true ->
  x = [] \/ y = [] ->
  log_samples x y (l, fs) = ((l, fs), Raise IndexError).
Proof.
  intros Hflag Hxy. unfold log_samples, bind, self_logger. simpl.
  rewrite Hflag. destruct x as [|x0 xs]; [reflexivity|].
  destruct Hxy as [Hx | ->]; [discriminate|]. reflexivity.
Qed.

Lemma log_samples_first (l : Logger) (fs : gmap string file)
  (x0 : list num) xs (y0 : list num) ys w :
  create_samples_header l = true ->
  open_stream (handle_samples l) w fs ->
  exists rows fs' r,
    log_samples (x0 :: xs) (y0 :: ys) (l, fs)
    = ((set_create_samples_header false l, fs'), r)
    /\ open_stream (handle_samples l) (w ++ samples_header x0 y0 :: rows) fs'
    /\ Forall (fun s => is_header_line s = false) rows.
Proof.
  intros Hflag Hw. unfold log_samples.
  unfold bind at 1. unfold self_logger at 1. cbn [fst snd].
  rewrite Hflag. unfold bind at 1. unfold bind at 1.
  change (lift (index (x0 :: xs) 0) (l, fs)) with ((l, fs), Ok x0).
  cbv beta iota. unfold bind at 1.
  change (lift (index (y0 :: ys) 0) (l, fs)) with ((l, fs), Ok y0).
  cbv beta iota. unfold bind at 1.
  destruct (write_stream l fs (handle_samples l) w (samples_header x0 y0) Hw)
    as (fs1 & Hwrite & Hw1).
  rewrite Hwrite. unfold update_self at 1. cbn [fst snd].
  destruct (rows_and_flush (map (map fstr) (x0 :: xs))
              (map (map fstr) (y0 :: ys)) (range (len (x0 :: xs)))
              (set_create_samples_header false l) fs1
              (w ++ [samples_header x0 y0])%list Hw1)
    as (rows & fs' & r & Hrun & Hfs' & Hrows).
  exists rows, fs', r. split; [exact Hrun|]. split; [|exact Hrows].
  simpl in Hfs'. now rewrite <- app_assoc in Hfs'.
Qed.

Lemma log_samples_calls_app (a b : list (Z * @ndarray num * @ndarray num)) s :
  log_samples_calls (a ++ b) s
  = (fst (log_samples_calls b (fst (log_samples_calls a s))),
     snd (log_samples_calls a s)
     ++ snd (log_samples_calls b (fst (log_samples_calls a s))))%list.
Proof.
  revert s. induction a as [|[[id x] y] a IH]; intros s.
  - simpl. now destruct (log_samples_calls b s).
  - cbn [app log_samples_calls].
    destruct (log_samples x y (set_method_calls id (fst s), snd s)) as [s1 r].
    rewrite IH. destruct (log_samples_calls a s1) as [s2 rs]. reflexivity.
Qed.

Lemma calls_before_first_point (pre : list (Z * @ndarray num * @ndarray num))
  (l : Logger) (fs : gmap string file) :
  create_samples_header l = true ->
  Forall (fun c => snd (fst c) = [] \/ snd c = []) pre ->
  exists l', log_samples_calls pre (l, fs)
             = ((l', fs), replicate (length pre) (Raise IndexError))
             /\ create_samples_header l' = true
             /\ handle_samples l' = handle_samples l.
Proof.
  intros Hflag Hpre. revert l Hflag.
  induction Hpre as [|[[id x] y] pre Hx _ IH]; intros l Hflag.
  - exists l. auto.
  - simpl in Hx. cbn [log_samples_calls fst snd].
    rewrite log_samples_no_point by (exact Hflag || exact Hx).
    destruct (IH (set_method_calls id l) Hflag) as (l' & Hrun & Hf & Hh).
    rewrite Hrun. exists l'. auto.
Qed.

Lemma calls_after_header (calls : list (Z * @ndarray num * @ndarray num))
  (l : Logger) (fs : gmap string file) w :
  create_samples_header l = false ->
  open_stream (handle_samples l) w fs ->
  exists rows,
    open_stream (handle_samples l) (w ++ rows)
      (snd (fst (log_samples_calls calls (l, fs))))
    /\ Forall (fun s => is_header_line s = false) rows.
Proof.
  revert l fs w. induction calls as [|[[id x] y] calls IH]; intros l fs w Hflag Hw.
  - exists []. rewrite app_nil_r. auto.
  - cbn [log_samples_calls fst snd].
    destruct (log_samples_no_header (set_method_calls id l) fs x y w Hflag Hw)
      as (rows & fs' & r & Hrun & Hfs' & Hrows).
    rewrite Hrun.
    destruct (IH (set_method_calls id l) fs' (w ++ rows)%list Hflag Hfs')
      as (rows' & Hfin & Hrows').
    destruct (log_samples_calls calls (set_method_calls id l, fs'))
      as [s2 rs]. cbn [fst snd] in *.
    exists (rows ++ rows')%list. split.
    + now rewrite app_assoc.
    + apply Forall_app. auto.
Qed.

(** C8. On a fresh Logger (header pending, nothing written to the samples
    stream), calls of [log_samples] that carry no point -- no input row or
    no output row -- write nothing (each raises IndexError, which ends a
    run).  The first call that carries a point writes the header as the
    first line of the stream:
    [method_call_id], then [x0], [x1], ... one per entry of its first
    input row, then [y0], [y1], ... one per entry of its first output row,
    joined by commas.  Every line written after it, by that call or any
    later one, is a data line.  So the stream holds exactly one header,
    built from that batch, whatever the later batches look like. *)
Theorem samples_header_written_once (l : Logger) (fs : gmap string file)
  (pre post : list (Z * @ndarray num * @ndarray num)) id x0 xs y0 ys :
  create_samples_header l = true ->
  fs !! handle_samples l
  = Some {| content := []; pending := []; is_open := true |} ->
  Forall (fun c => snd (fst c) = [] \/ snd c = []) pre ->
  (snd (fst (log_samples_calls pre (l, fs))) !! handle_samples l
   = Some {| content := []; pending := []; is_open := true |}
   /\ snd (log_samples_calls pre (l, fs))
      = replicate (length pre) (Raise IndexError))
  /\ exists f rows,
      snd (fst (log_samples_calls
                  (pre ++ (id, x0 :: xs, y0 :: ys) :: post) (l, fs)))
        !! handle_samples l = Some f
      /\ is_open f = true
      /\ written f
         = (String.concat ","
              (["method_call_id"]
               ++ map (fun i => "x" ++ str_int (Z.of_nat i))
                      (seq 0 (length x0))
               ++ map (fun i => "y" ++ str_int (Z.of_nat i))
                      (seq 0 (length y0)))
            ++ nl) :: rows
      /\ is_header_line
           (String.concat ","
              (["method_call_id"]
               ++ map (fun i => "x" ++ str_int (Z.of_nat i))
                      (seq 0 (length x0))
               ++ map (fun i => "y" ++ str_int (Z.of_nat i))
                      (seq 0 (length y0)))
            ++ nl) = true
      /\ Forall (fun s => is_header_line s = false) rows.
Proof.
  intros Hflag Hc Hpre.
  destruct (calls_before_first_point pre l fs Hflag Hpre)
    as (l' & Hrun & Hflag' & Hh).
  split; [rewrite Hrun; split; [exact Hc|reflexivity]|].
  rewrite log_samples_calls_app, Hrun. cbn [log_samples_calls fst snd].
  assert (Hw : open_stream (handle_samples (set_method_calls id l')) [] fs).
  { eexists. simpl. rewrite Hh. split; [exact Hc|]. split; reflexivity. }
  destruct (log_samples_first (set_method_calls id l') fs x0 xs y0 ys []
              Hflag' Hw) as (rows & fs' & r & Hfirst & Hfs' & Hrows).
  rewrite Hfirst.
  destruct (calls_after_header post
              (set_create_samples_header false (set_method_calls id l')) fs'
              ([] ++ samples_header x0 y0 :: rows)%list eq_refl Hfs')
    as (rows' & Hfin & Hrows').
  destruct (log_samples_calls post _) as [s2 rs]. cbn [fst snd] in *.
  destruct Hfin as (f & Hf & Ho & Hwr).
  exists f, (rows ++ rows')%list. simpl in Hf. rewrite <- Hh.
  split; [exact Hf|]. split; [exact Ho|].
  rewrite <- samples_header_columns.
  split; [exact Hwr|].
  split; [apply samples_header_is_header|].
  apply Forall_app. auto.
Qed.

End SamplesStream.

(** ** Streams stay open until the Logger is deleted *)

Lemma last_char_app (s t : string) c d :
  last_char (s ++ String c t) d = last_char t c.
Proof.
  revert d. induction s as [|a s IH]; intros d; [reflexivity|].
  change (String a s ++ String c t) with (String a (s ++ String c t)).
  simpl. apply IH.
Qed.

(** A path ending in [.yaml] is none of the [.csv] stream files. *)
Lemma yaml_not_stream (prefix name folder : string) :
  last_char name "/" = "l"%char ->
  ~ In (prefix ++ os_sep ++ name) (stream_paths folder).
Proof.
  intros Hl Hin.
  assert (Hlast : last_char (prefix ++ os_sep ++ name) "x" = "l"%char).
  { change (os_sep ++ name) with (String "/" name).
    now rewrite last_char_app. }
  unfold stream_paths in Hin. simpl in Hin.
  destruct Hin as [E|[E|[E|[]]]]; rewrite <- E in Hlast;
    match type of Hlast with
    | last_char (_ ++ os_sep ++ ?n) _ = _ =>
        change (os_sep ++ n) with (String "/" n) in Hlast
    end;
    rewrite last_char_app in Hlast; discriminate Hlast.
Qed.

Lemma file_state_insert open h p g (fs : gmap string file) :
  is_open g = open ->
  file_state open h fs -> file_state open h (<[p := g]> fs).
Proof.
  intros Hg (f & Hf & Ho). unfold file_state.
  destruct (decide (p = h)) as [->|Hne].
  - exists g. now rewrite lookup_insert_eq.
  - exists f. now rewrite lookup_insert_ne.
Qed.

Lemma file_state_insert_eq open p g (fs : gmap string file) :
  is_open g = open -> file_state open p (<[p := g]> fs).
Proof.
  intros Hg. exists g. now rewrite lookup_insert_eq.
Qed.

Lemma file_state_close_ne open h p (fs : gmap string file) :
  p <> h -> file_state open h fs -> file_state open h (close p fs).
Proof.
  intros Hne (f & Hf & Ho). exists f. unfold close.
  now rewrite lookup_alter_ne.
Qed.

Lemma file_state_close_closed h p (fs : gmap string file) :
  file_state false h fs -> file_state false h (close p fs).
Proof.
  intros (f & Hf & Ho). unfold close, file_state.
  destruct (decide (p = h)) as [->|Hne].
  - rewrite lookup_alter_eq, Hf. simpl. rewrite Ho. eauto.
  - rewrite lookup_alter_ne by done. eauto.
Qed.

Lemma file_state_close_eq open h (fs : gmap string file) :
  file_state open h fs -> file_state false h (close h fs).
Proof.
  intros (f & Hf & Ho). unfold close, file_state.
  rewrite lookup_alter_eq, Hf. simpl.
  destruct (is_open f) eqn:E; eexists; (split; [reflexivity|]); auto.
Qed.

Lemma file_state_close_any open h p (fs : gmap string file) :
  file_state open h fs ->
  file_state open h (close p fs) \/ file_state false h (close p fs).
Proof.
  intros Hf. destruct (decide (p = h)) as [->|Hne].
  - right. eapply file_state_close_eq; eauto.
  - left. now apply file_state_close_ne.
Qed.

Section KeepsStreams.
Variable folder : string.

Lemma keeps_ret {A} (a : A) : keeps_streams folder (ret a).
Proof. intros l fs Hl Hfs. auto. Qed.

Lemma keeps_raise {A} e : keeps_streams folder (raise (A:=A) e).
Proof. intros l fs Hl Hfs. auto. Qed.

Lemma keeps_lift {A} (r : result A) : keeps_streams folder (lift r).
Proof. intros l fs Hl Hfs. auto. Qed.

Lemma keeps_self_logger : keeps_streams folder self_logger.
Proof. intros l fs Hl Hfs. auto. Qed.

Lemma keeps_files : keeps_streams folder files.
Proof. intros l fs Hl Hfs. auto. Qed.

Lemma keeps_bind {A B} (c : LM A) (k : A -> LM B) :
  keeps_streams folder c -> (forall a, keeps_streams folder (k a)) ->
  keeps_streams folder (bind c k).
Proof.
  intros Hc Hk l fs Hl Hfs. unfold bind.
  specialize (Hc l fs Hl Hfs).
  destruct (c (l, fs)) as [[l' fs'] [a|e]]; simpl in Hc.
  - apply Hk; tauto.
  - exact Hc.
Qed.

Lemma keeps_update_self (f : Logger -> Logger) :
  (forall l, on_folder folder l -> on_folder folder (f l)) ->
  keeps_streams folder (update_self f).
Proof. intros Hf l fs Hl Hfs. simpl. auto. Qed.

Lemma keeps_open_file p : keeps_streams folder (open_file p).
Proof.
  intros l fs Hl Hfs. simpl. split; [exact Hl|].
  intros h Hh. apply file_state_insert; auto.
Qed.

Lemma keeps_write p text : keeps_streams folder (write p text).
Proof.
  intros l fs Hl Hfs. unfold write, write_to. simpl.
  destruct (fs !! p) as [f|]; [|auto].
  destruct (is_open f); [|auto]. simpl. split; [exact Hl|].
  intros h Hh. apply file_state_insert; auto.
Qed.

Lemma keeps_flush_file p : keeps_streams folder (flush_file p).
Proof.
  intros l fs Hl Hfs. unfold flush_file, flush_to. simpl.
  destruct (fs !! p) as [f|]; [|auto].
  destruct (is_open f); [|auto]. simpl. split; [exact Hl|].
  intros h Hh. apply file_state_insert; auto.
Qed.

Lemma keeps_close_file p :
  ~ In p (stream_paths folder) -> keeps_streams folder (close_file p).
Proof.
  intros Hp l fs Hl Hfs. simpl. split; [exact Hl|].
  intros h Hh. apply file_state_close_ne; auto.
  intros ->. contradiction.
Qed.

Lemma keeps_for_ {A} (items : list A) (body : A -> LM unit) :
  (forall a, keeps_streams folder (body a)) ->
  keeps_streams folder (for_ items body).
Proof.
  intros Hbody. induction items as [|a items IH]; simpl.
  - apply keeps_ret.
  - apply keeps_bind; auto.
Qed.

Lemma keeps_log_method_calls {num} `{PyFloat num} (dt : num) total generated :
  keeps_streams folder (log_method_calls dt total generated).
Proof.
  unfold log_method_calls.
  apply keeps_bind; [apply keeps_self_logger|]. intros self.
  apply keeps_write.
Qed.

Lemma keeps_log_function_calls {num} `{PyFloat num}
  (counter : list (Z * num * bool)) :
  keeps_streams folder (log_function_calls counter).
Proof.
  unfold log_function_calls. apply keeps_for_. intros entry.
  apply keeps_bind; [apply keeps_self_logger|]. intros self.
  apply keeps_write.
Qed.

Lemma keeps_log_samples {num} `{PyFloat num} (x y : @ndarray num) :
  keeps_streams folder (log_samples x y).
Proof.
  unfold log_samples.
  apply keeps_bind; [apply keeps_self_logger|]. intros self.
  apply keeps_bind.
  - destruct (create_samples_header self); [|apply keeps_ret].
    apply keeps_bind; [apply keeps_lift|]. intros x0.
    apply keeps_bind; [apply keeps_lift|]. intros y0.
    apply keeps_bind; [apply keeps_write|]. intros _.
    apply keeps_update_self. intros l Hl. exact Hl.
  - intros _. apply keeps_bind.
    + apply keeps_for_. intros i.
      apply keeps_bind; [apply keeps_self_logger|]. intros self'.
      apply keeps_bind; [apply keeps_lift|]. intros point.
      apply keeps_bind; [apply keeps_lift|]. intros label.
      apply keeps_write.
    + intros _.
      apply keeps_bind; [apply keeps_self_logger|]. intros self'.
      apply keeps_flush_file.
Qed.

Lemma keeps_snapshot p (text : result string) :
  ~ In p (stream_paths folder) ->
  keeps_streams folder
    (open_file p ;;;
     match text with
     | Ok t => write p t ;;; close_file p
     | Raise e => close_file p ;;; raise e
     end).
Proof.
  intros Hp. apply keeps_bind; [apply keeps_open_file|]. intros _.
  destruct text as [t|e].
  - apply keeps_bind; [apply keeps_write|]. intros _.
    now apply keeps_close_file.
  - apply keeps_bind; [now apply keeps_close_file|]. intros _.
    apply keeps_raise.
Qed.

Lemma keeps_log_experiment meta : keeps_streams folder (log_experiment meta).
Proof.
  unfold log_experiment.
  apply keeps_bind; [apply keeps_self_logger|]. intros self.
  apply keeps_snapshot. now apply yaml_not_stream.
Qed.

Lemma keeps_log_benchmarks bench : keeps_streams folder (log_benchmarks bench).
Proof.
  unfold log_benchmarks.
  apply keeps_bind; [apply keeps_self_logger|]. intros self.
  apply keeps_bind; [apply keeps_files|]. intros fs.
  destruct (path_exists _ fs); [apply keeps_ret|].
  apply keeps_snapshot. now apply yaml_not_stream.
Qed.

End KeepsStreams.

(** ** The control loop *)

Section LoopTheorems.
Context {num : Type} `{PyFloat num} {C : Type}.
Variable stop : @ndarray num -> @ndarray num -> M C bool.
Variable dir : string.

Lemma logging_bind {A B} (c : M (World C) A) (k : A -> M (World C) B) :
  keeps_logging dir c -> (forall a, keeps_logging dir (k a)) ->
  keeps_logging dir (bind c k).
Proof.
  intros Hc Hk w Hw. unfold bind. specialize (Hc w Hw).
  destruct (c w) as [w' [a|e]]; simpl in Hc; [now apply Hk|exact Hc].
Qed.

Lemma logging_ret {A} (a : A) : keeps_logging (C:=C) dir (ret a).
Proof. intros w Hw. exact Hw. Qed.

Lemma logging_lift {A} (r : result A) : keeps_logging (C:=C) dir (lift r).
Proof. intros w Hw. exact Hw. Qed.

Lemma logging_on_logger {A} (c : LM A) :
  keeps_streams dir c -> keeps_logging (C:=C) dir (on_logger c).
Proof.
  intros Hc w (l & Hl & Hon & Hfs). unfold on_logger. rewrite Hl.
  specialize (Hc l (fs w) Hon Hfs).
  destruct (c (l, fs w)) as [[l' fs'] r]. simpl in *.
  exists l'. simpl. tauto.
Qed.

Lemma logging_on_self {A} (c : M C A) : keeps_logging dir (on_self c).
Proof.
  intros w Hw. unfold on_self. destruct (c (attrs w)) as [a' r]. exact Hw.
Qed.

Lemma logging_iteration log_data (it : @Iteration num) n :
  keeps_logging (C:=C) dir (iteration log_data it n).
Proof.
  unfold iteration.
  apply logging_bind.
  { apply logging_on_logger, keeps_update_self. intros l Hl. exact Hl. }
  intros _. apply logging_bind; [apply logging_lift|]. intros xy.
  apply logging_bind.
  { apply logging_on_logger, keeps_log_method_calls. }
  intros _. apply logging_bind.
  { destruct log_data; [|apply logging_ret].
    apply logging_on_logger, keeps_log_samples. }
  intros _. apply logging_bind.
  { apply logging_on_logger, keeps_log_function_calls. }
  intros _. apply logging_bind; [apply logging_lift|]. intros _.
  apply logging_ret.
Qed.

Lemma logging_stopping_check (it : @Iteration num) x y :
  keeps_logging dir (stopping_check stop it x y).
Proof.
  unfold stopping_check.
  apply logging_bind; [apply logging_lift|]. intros [|].
  - apply logging_ret.
  - apply logging_on_self.
Qed.

Lemma logging_while log_data (script : list (@Iteration num)) n :
  keeps_logging dir (while_not_finished stop log_data script n).
Proof.
  revert n. induction script as [|it script IH]; intros n; simpl.
  - apply logging_ret.
  - apply logging_bind; [apply logging_iteration|]. intros [[n' x] y].
    apply logging_bind; [apply logging_stopping_check|]. intros [|].
    + apply logging_ret.
    + apply IH.
Qed.

(** A new Logger has its three streams open. *)
Lemma Logger_init_streams p (fs0 : gmap string file) :
  exists l fs1,
    Logger_init p dir fs0 = ((l, fs1), Ok tt)
    /\ on_folder dir l /\ streams true dir fs1.
Proof.
  unfold Logger_init, _create_handles.
  unfold bind at 1. unfold self_logger at 1. cbn [fst snd].
  unfold bind at 1. unfold open_file at 1. cbn [fst snd].
  unfold bind at 1. unfold open_file at 1. cbn [fst snd].
  unfold bind at 1. erewrite write_open by apply lookup_insert_eq.
  unfold bind at 1. unfold open_file at 1. cbn [fst snd].
  erewrite write_open by apply lookup_insert_eq.
  eexists _, _. split; [reflexivity|]. split; [reflexivity|].
  intros h Hh. unfold stream_paths in Hh. simpl in Hh. unfold open_w.
  destruct Hh as [<-|[<-|[<-|[]]]];
    repeat first [ apply file_state_insert_eq; reflexivity
                 | apply file_state_insert; [reflexivity|] ].
Qed.

(** Deleting the Logger closes its streams. *)
Lemma Logger_del_streams l (fs0 : gmap string file) :
  on_folder dir l -> streams true dir fs0 ->
  streams false dir (Logger_del l fs0).
Proof.
  intros Hon Hfs h Hh. unfold Logger_del. rewrite Hon.
  unfold stream_paths in *. simpl in Hh |- *.
  assert (H1 := Hfs _ Hh).
  destruct Hh as [<-|[<-|[<-|[]]]].
  - apply file_state_close_closed, file_state_close_closed.
    eapply file_state_close_eq; eauto.
  - apply file_state_close_closed.
    destruct (file_state_close_any true
                (dir ++ os_sep ++ "functioncalls.csv")
                (dir ++ os_sep ++ "samples.csv") fs0 H1) as [Ho|Hc].
    + eapply file_state_close_eq; eauto.
    + now apply file_state_close_closed.
  - destruct (file_state_close_any true
                (dir ++ os_sep ++ "methodcalls.csv")
                (dir ++ os_sep ++ "samples.csv") fs0 H1) as [Ho|Hc].
    + destruct (file_state_close_any true
                  (dir ++ os_sep ++ "methodcalls.csv")
                  (dir ++ os_sep ++ "functioncalls.csv") _ Ho) as [Ho'|Hc'].
      * eapply file_state_close_eq; eauto.
      * now apply file_state_close_closed.
    + apply file_state_close_closed, file_state_close_closed. exact Hc.
Qed.

End LoopTheorems.

Section RunTheorems.
Context {num : Type} `{PyFloat num} {C : Type}.
Variable stop : @ndarray num -> @ndarray num -> M C bool.

(** C5. An iteration whose body completes is followed by
    [self.method.is_finished() or self._stop_experiment(x, y)]: when the
    method reports itself finished the loop halts and the criterion is not
    evaluated; otherwise the criterion is evaluated and the loop halts when
    it answers [True] and goes on to the next iteration when it answers
    [False].  A halt does not depend on the iterations that would follow. *)
Theorem loop_halts_on_finished_or_stop log_data (it : @Iteration num)
  (script' : list (@Iteration num)) n (w : World C) :
  match iteration log_data it n w with
  | (w1, Raise e) =>
      while_not_finished stop log_data (it :: script') n w = (w1, Raise e)
  | (w1, Ok (n1, x, y)) =>
      match is_finished it with
      | Raise e =>
          while_not_finished stop log_data (it :: script') n w = (w1, Raise e)
      | Ok true =>
          while_not_finished stop log_data (it :: script') n w = (w1, Ok Halted)
      | Ok false =>
          match on_self (stop x y) w1 with
          | (w2, Ok true) =>
              while_not_finished stop log_data (it :: script') n w
              = (w2, Ok Halted)
          | (w2, Ok false) =>
              while_not_finished stop log_data (it :: script') n w
              = while_not_finished stop log_data script' n1 w2
          | (w2, Raise e) =>
              while_not_finished stop log_data (it :: script') n w
              = (w2, Raise e)
          end
      end
  end.
Proof.
  destruct (iteration log_data it n w) as [w1 [[[n1 x] y]|e]] eqn:Hbody.
  2:{ cbn [while_not_finished]. unfold bind at 1. now rewrite Hbody. }
  assert (Hloop : while_not_finished stop log_data (it :: script') n w
                  = (is_finished <~ stopping_check stop it x y ;;
                     if is_finished : bool then ret Halted
                     else while_not_finished stop log_data script' n1) w1).
  { cbn [while_not_finished]. unfold bind at 1. now rewrite Hbody. }
  rewrite Hloop. unfold stopping_check, bind, lift, ret.
  destruct (is_finished it) as [[|]|e]; try reflexivity.
  destruct (on_self (stop x y) w1) as [w2 [[|]|e]]; reflexivity.
Qed.

(** C3, as the code has it. When the loop is left by its condition,
    [del (self.logger)] removes the Logger and its three streams are closed
    on return.  When anything after the Logger's creation raises -- the
    method, a logging call, the counter reset, [is_finished] or the
    stopping criterion -- the error leaves [_perform_experiment] with the
    Logger still attached and its streams still open. *)
Theorem logger_released_on_normal_exit_only (env : @Setting num) log_data
  (w : World C) :
  let '(w', r) := _perform_experiment stop env log_data w in
  match r with
  | Ok Halted => logger w' = None /\ streams false (folder env) (fs w')
  | Ok ScriptEnded => logging (folder env) w'
  | Raise e =>
      if function_is_TestFunction env then logging (folder env) w'
      else logger w' = logger w /\ fs w' = fs w
  end.
Proof.
  unfold _perform_experiment.
  unfold bind at 1. unfold print at 1. unfold bind at 1.
  destruct (function_is_TestFunction env); [|simpl; auto].
  unfold ret at 1. unfold bind at 1. unfold get at 1. cbn [path fs].
  destruct (Logger_init_streams (folder env) (path w) (fs w))
    as (l & fs1 & Hinit & Hon & Hst).
  rewrite Hinit. unfold bind at 1. unfold bind at 1. unfold set_fs at 1.
  unfold bind at 1. unfold lift at 1. unfold set_logger at 1.
  cbn [attrs path logger fs stdout].
  match goal with
  | |- context [bind (on_logger (log_experiment _)) _ ?w2] =>
      assert (Hw2 : logging (folder env) w2)
        by (exists l; simpl; auto);
      generalize dependent w2
  end.
  intros w2 Hw2.
  unfold bind at 1.
  pose proof (logging_on_logger (folder env) (log_experiment (meta env))
                (keeps_log_experiment _ _) w2 Hw2) as Hw3.
  destruct (on_logger (log_experiment (meta env)) w2) as [w3 [[]|e]];
    simpl in Hw3; [|exact Hw3].
  unfold bind at 1.
  pose proof (logging_on_logger (folder env) (log_benchmarks (bench env))
                (keeps_log_benchmarks _ _) w3 Hw3) as Hw4.
  destruct (on_logger (log_benchmarks (bench env)) w3) as [w4 [[]|e]];
    simpl in Hw4; [|exact Hw4].
  unfold bind at 1.
  pose proof (logging_while stop (folder env) log_data (script env) 0 w4 Hw4)
    as Hw5.
  destruct (while_not_finished stop log_data (script env) 0 w4)
    as [w5 [[|]|e]]; simpl in Hw5; [| exact Hw5 | exact Hw5].
  destruct Hw5 as (l5 & Hl5 & Hon5 & Hst5).
  unfold bind, del_logger. rewrite Hl5. simpl.
  split; [reflexivity|]. now apply Logger_del_streams.
Qed.

End RunTheorems.

(** ** The alias class *)

Lemma Optimization_getattr (name : string) :
  class_getattr cls_OptimizationExperiment name
  = class_getattr cls_OptimisationExperiment name.
Proof.
  unfold class_getattr, mro. cbn [linearize base foldr class_dict].
  now rewrite lookup_empty.
Qed.

(** C10. [OptimizationExperiment] defines nothing of its own, so every
    attribute resolves to the function [OptimisationExperiment] resolves it
    to, and instantiating the class and calling [run] gives the same result
    -- the same final experiment state, files, printed text and outcome --
    for every method, path, argument list, setting and file store. *)
Theorem Optimization_is_Optimisation {num : Type} `{PyFloat num} :
  (forall name,
      class_getattr cls_OptimizationExperiment name
      = class_getattr cls_OptimisationExperiment name)
  /\ (forall method_is_Method p (args : @run_args num) (env : @Setting num) fs0,
      experiment_run cls_OptimizationExperiment method_is_Method p args env fs0
      = experiment_run cls_OptimisationExperiment method_is_Method p args env fs0).
Proof.
  split; [exact Optimization_getattr|].
  intros method_is_Method p args env fs0.
  unfold experiment_run, new_experiment, is_abstract, call_run,
    call__perform_experiment, call__stop_experiment.
  cbn [existsb].
  rewrite !Optimization_getattr. reflexivity.
Qed.

(** ** Concrete runs *)

(** C3 as stated fails on the code: in a run whose method raises in the
    first iteration, the error leaves [run] with the Logger still attached
    to the experiment and its three streams still open. *)
Lemma raising_iteration_leaves_streams_open :
  match experiment_run cls_PosteriorSamplingExperiment true "out"
          (PosteriorSamplingArgs (Some 1000) true)
          (setting_with [failing_iteration]) ∅ with
  | Ok (w, Raise _) =>
      logger w <> None
      /\ Forall (fun h => exists f, fs w !! h = Some f /\ is_open f = true)
                (stream_paths "out/sphere")
  | _ => False
  end.
Proof.
  vm_compute. split; [discriminate|].
  repeat constructor; eexists; (split; [reflexivity|reflexivity]).
Qed.

(** A run that ends by its loop condition: the method reports itself
    finished after one iteration; the Logger is gone and the streams are
    closed. *)
Lemma logger_released_on_normal_exit_only_witness :
  let run := _perform_experiment
               (call__stop_experiment cls_PosteriorSamplingExperiment)
               (setting_with [one_point_iteration true]) true
               (fresh_world (PosteriorSamplingAttrs
                  {| ps_finish_line := Some 1000; ps_n_sampled := 0 |})) in
  snd run = Ok Halted
  /\ logger (fst run) = None
  /\ streams false "out/sphere" (fs (fst run)).
Proof.
  intros run.
  pose proof (logger_released_on_normal_exit_only
                (call__stop_experiment cls_PosteriorSamplingExperiment)
                (setting_with [one_point_iteration true]) true
                (fresh_world (PosteriorSamplingAttrs
                   {| ps_finish_line := Some 1000; ps_n_sampled := 0 |})))
    as Hrun.
  fold run in Hrun.
  assert (Hexit : snd run = Ok Halted) by (vm_compute; reflexivity).
  destruct run as [w' r]. simpl in Hexit. subst r.
  split; [reflexivity|exact Hrun].
Defined.

(** Four calls on a fresh Logger: an empty batch, a batch with an input
    row and no output row, a batch of one point with two inputs and one
    output, a batch with other dimensions.  The header has the columns of
    the third call. *)
Lemma samples_header_written_once_witness :
  exists f rows,
    snd (fst (log_samples_calls
           [(1%Z, [], []); (2%Z, [[7]], []); (3%Z, [[0; 1]], [[5]]);
            (4%Z, [[0; 1; 2]], [[5; 6]])]%Q
           (fst (Logger_init "out" "out/sphere" ∅))))
      !! "out/sphere/samples.csv" = Some f
    /\ is_open f = true
    /\ written f = ("method_call_id,x0,x1,y0" ++ nl) :: rows
    /\ Forall (fun s => is_header_line s = false) rows.
Proof.
  destruct (samples_header_written_once
              (fst (fst (Logger_init "out" "out/sphere" ∅)))
              (snd (fst (Logger_init "out" "out/sphere" ∅)))
              [(1%Z, [], []); (2%Z, [[7]], [])]%Q
              [(4%Z, [[0; 1; 2]], [[5; 6]])]%Q
              3 [0; 1]%Q [] [5]%Q [])
    as [_ (f & rows & Hf & Ho & Hw & _ & Hdata)].
  - reflexivity.
  - vm_compute. reflexivity.
  - constructor; [left; reflexivity|].
    constructor; [right; reflexivity|]. constructor.
  - exists f, rows. split; [exact Hf|]. split; [exact Ho|].
    split; [exact Hw|exact Hdata].
Defined.

(** A first run measures, a second run under the same base path and a
    write to another file follow. *)
Lemma benchmarks_written_once_witness :
  foldl (fun fs a => perform a fs)
        (perform (Benchmarks (fst (fst (Logger_init "out" "out/sphere" ∅)))
                             (Ok "first")) ∅)
        [Benchmarks (fst (fst (Logger_init "out" "out/sphere_1" ∅)))
                    (Ok "second");
         OtherFile "out/sphere_1/samples.csv"
                   (Some {| content := []; pending := []; is_open := true |})]
    !! benchmarks_path "out"
  = Some {| content := ["first"]; pending := []; is_open := false |}.
Proof.
  refine (proj2 (proj2 (benchmarks_written_once
            (fst (fst (Logger_init "out" "out/sphere" ∅))) (Ok "first") ∅
            [Benchmarks (fst (fst (Logger_init "out" "out/sphere_1" ∅)))
                        (Ok "second");
             OtherFile "out/sphere_1/samples.csv"
                       (Some {| content := []; pending := [];
                                is_open := true |})] _) _)).
  - repeat constructor. simpl. vm_compute. discriminate.
  - vm_compute. reflexivity.
Defined.

(** * Further properties of the module *)

(** ** The stopping criteria over a run *)

Section CriterionRuns.
Context {num : Type} `{PyFloat num}.

Implicit Types self : @OptimisationExperiment num.

Lemma total_batch_sizes_nonneg (batches : list (@ndarray num * @ndarray num)) :
  0 <= total (batch_sizes batches).
Proof.
  unfold total, batch_sizes.
  induction batches as [|b batches IH]; cbn [map foldr]; [lia|].
  unfold len at 1. lia.
Qed.

(** What one evaluation that answers [False] does to the state. *)
Lemma stop_false_step self (x y : @ndarray num) self' :
  Optimisation_stop_experiment x y self = (self', Ok false) ->
  exists l' m,
    n_sampled self' = Some l'
    /\ match n_sampled self with
       | None => l' = [len x]
       | Some l => exists t, last l = Some t /\ l' = (l ++ [t + len x])%list
       end
    /\ np_min y = Ok m
    /\ optimals self' = (optimals self ++ [m])%list
    /\ epsilon self' = epsilon self
    /\ absolute_improvement self' = absolute_improvement self
    /\ patience self' = patience self
    /\ finish_line self' = finish_line self.
Proof.
  intros Hstep.
  unfold Optimisation_stop_experiment, bind, get, put, lift, ret in Hstep.
  destruct (n_sampled self) as [l|] eqn:Hn.
  - rewrite index_last in Hstep.
    destruct (last l) as [t|] eqn:Hlast; [|discriminate].
    destruct (n_sampled_at (set_n_sampled (l ++ [t + len x]) self) (-1))
      as [lst|e]; [|discriminate].
    destruct (int_gt lst (finish_line (set_n_sampled (l ++ [t + len x]) self)))
      as [[|]|e]; try discriminate.
    destruct (np_min y) as [m|e]; [|discriminate].
    destruct (_sampled_since_last_improvement _) as [since|e]; [|discriminate].
    destruct (patience _ <? since); [discriminate|].
    injection Hstep as <-. exists (l ++ [t + len x])%list, m. simpl.
    repeat split; eauto.
  - destruct (n_sampled_at (set_n_sampled [len x] self) (-1)) as [lst|e];
      [|discriminate].
    destruct (int_gt lst (finish_line (set_n_sampled [len x] self)))
      as [[|]|e]; try discriminate.
    destruct (np_min y) as [m|e]; [|discriminate].
    destruct (_sampled_since_last_improvement _) as [since|e]; [|discriminate].
    destruct (patience _ <? since); [discriminate|].
    injection Hstep as <-. exists [len x], m. simpl. repeat split; eauto.
Qed.

Lemma criterion_run_all_false {C} (stop : @ndarray num -> @ndarray num -> M C bool)
  x y batches (s s' : C) rs :
  criterion_run stop ((x, y) :: batches) s = (s', rs) ->
  Forall (fun r => r = Ok false) rs ->
  exists s1 rs', stop x y s = (s1, Ok false)
                 /\ criterion_run stop batches s1 = (s', rs')
                 /\ Forall (fun r => r = Ok false) rs'.
Proof.
  cbn [criterion_run]. intros Hrun Hall.
  destruct (stop x y s) as [s1 [[|]|e]].
  - injection Hrun as <- <-. inversion Hall as [|? ? Hr _]. discriminate Hr.
  - destruct (criterion_run stop batches s1) as [s2 rs'] eqn:Hrest.
    injection Hrun as <- <-. inversion Hall. eauto.
  - injection Hrun as <- <-. inversion Hall as [|? ? Hr _]. discriminate Hr.
Qed.

Lemma running_totals_from self (batches : list (@ndarray num * @ndarray num))
  l t self' rs :
  n_sampled self = Some l -> last l = Some t ->
  criterion_run Optimisation_stop_experiment batches self = (self', rs) ->
  Forall (fun r => r = Ok false) rs ->
  n_sampled self' = Some (l ++ running_totals t (batch_sizes batches))%list
  /\ exists ms, optimals self' = (optimals self ++ ms)%list
                /\ Forall2 (fun b m => np_min (snd b) = Ok m) batches ms.
Proof.
  revert self l t rs.
  induction batches as [|[x y] batches IH]; intros self l t rs Hn Hlast Hrun Hall.
  - simpl in Hrun. injection Hrun as <- <-. simpl. rewrite !app_nil_r.
    split; [exact Hn|]. exists []. rewrite app_nil_r. split; auto.
  - destruct (criterion_run_all_false _ _ _ _ _ _ _ Hrun Hall)
      as (s1 & rs' & Hstep & Hrest & Hall').
    destruct (stop_false_step _ _ _ _ Hstep)
      as (l' & m & Hn1 & Hl' & Hmin & Hopt & _).
    rewrite Hn in Hl'. destruct Hl' as (t' & Hlast' & ->).
    assert (t' = t) by congruence. subst t'.
    destruct (IH s1 (l ++ [t + len x])%list (t + len x) rs' Hn1
                (last_snoc _ _) Hrest Hall') as (Hns & ms & Hos & Hms).
    split.
    + rewrite Hns. simpl. now rewrite <- app_assoc.
    + exists (m :: ms). split.
      * rewrite Hos, Hopt. now rewrite <- app_assoc.
      * constructor; auto.
Qed.

(** X2. While the Optimisation criterion keeps answering [False] from the
    state [run] sets up, [n_sampled] holds the cumulative number of points
    after each batch and [optimals] holds [np.min(y)] of each batch, one
    entry per batch, in order. *)
Theorem optimisation_state_records_the_run (eps : num) (absolute : bool)
  (pat : Z) (fl : option Z) (batches : list (@ndarray num * @ndarray num))
  self' rs :
  batches <> [] ->
  criterion_run Optimisation_stop_experiment batches
    {| epsilon := eps; absolute_improvement := absolute; patience := pat;
       finish_line := fl; n_sampled := None; optimals := [] |}
  = (self', rs) ->
  Forall (fun r => r = Ok false) rs ->
  n_sampled self' = Some (running_totals 0 (batch_sizes batches))
  /\ Forall2 (fun b m => np_min (snd b) = Ok m) batches (optimals self')
  /\ length rs = length batches.
Proof.
  intros Hne Hrun Hall.
  destruct batches as [|[x y] batches]; [congruence|].
  destruct (criterion_run_all_false _ _ _ _ _ _ _ Hrun Hall)
    as (s1 & rs' & Hstep & Hrest & Hall').
  destruct (stop_false_step _ _ _ _ Hstep)
    as (l' & m & Hn1 & Hl' & Hmin & Hopt & _).
  simpl in Hl', Hopt. subst l'.
  destruct (running_totals_from s1 batches [len x] (len x) self' rs'
              Hn1 eq_refl Hrest Hall') as (Hns & ms & Hos & Hms).
  split; [|split].
  - rewrite Hns. simpl. reflexivity.
  - rewrite Hos, Hopt. simpl. constructor; auto.
  - cbn [criterion_run] in Hrun. rewrite Hstep, Hrest in Hrun.
    injection Hrun as <-. simpl. f_equal.
    clear -Hrest Hall'. revert s1 rs' Hrest Hall'.
    induction batches as [|[x' y'] batches IH]; intros s1 rs' Hrest Hall'.
    + simpl in Hrest. now injection Hrest as _ <-.
    + destruct (criterion_run_all_false _ _ _ _ _ _ _ Hrest Hall')
        as (s2 & rs'' & Hstep' & Hrest' & Hall'').
      cbn [criterion_run] in Hrest. rewrite Hstep', Hrest' in Hrest.
      injection Hrest as <-. simpl. f_equal. eauto.
Qed.

(** X1. The hard cap of the Optimisation criterion is strict and comes
    first, in the first evaluation of a run ([n_sampled] still [None]) as
    in every later one: when the new cumulative count -- the size of the
    first batch, or the last count plus the size of the batch -- exceeds
    [finish_line] the call answers [True] with [optimals] untouched,
    whatever [y] holds; when the count is at most [finish_line] -- equal
    included -- the answer is that of the patience test. *)
Theorem hard_cap_is_strict_and_comes_first self fl (x y : @ndarray num) :
  finish_line self = Some fl ->
  (n_sampled self = None ->
   (fl < len x ->
    Optimisation_stop_experiment x y self
    = (set_n_sampled [len x] self, Ok true))
   /\ (len x <= fl ->
       forall m since,
         np_min y = Ok m ->
         _sampled_since_last_improvement
           (set_optimals (optimals self ++ [m])
              (set_n_sampled [len x] self)) = Ok since ->
         Optimisation_stop_experiment x y self
         = (set_optimals (optimals self ++ [m])
              (set_n_sampled [len x] self),
            Ok (patience self <? since))))
  /\ (forall l t,
      n_sampled self = Some l -> last l = Some t ->
      (fl < t + len x ->
       Optimisation_stop_experiment x y self
       = (set_n_sampled (l ++ [t + len x]) self, Ok true))
      /\ (t + len x <= fl ->
          forall m since,
            np_min y = Ok m ->
            _sampled_since_last_improvement
              (set_optimals (optimals self ++ [m])
                 (set_n_sampled (l ++ [t + len x]) self)) = Ok since ->
            Optimisation_stop_experiment x y self
            = (set_optimals (optimals self ++ [m])
                 (set_n_sampled (l ++ [t + len x]) self),
               Ok (patience self <? since)))).
Proof.
  intros Hfl. split.
  - intros Hn. split.
    + intros Hover.
      unfold Optimisation_stop_experiment, bind, get, put, lift, ret.
      rewrite Hn. unfold n_sampled_at.
      cbn [set_n_sampled n_sampled finish_line].
      change (index [len x] (-1)) with (Ok (len x)).
      rewrite Hfl. cbn [int_gt].
      destruct (Z.ltb_spec fl (len x)); [reflexivity|lia].
    + intros Hunder m since Hmin Hsince.
      apply (Optimisation_stop_first self fl x y m since); auto.
      destruct (Z.ltb_spec fl (len x)); [lia|reflexivity].
  - intros l t Hn Hlast. split.
    + intros Hover.
      unfold Optimisation_stop_experiment, bind, get, put, lift, ret.
      rewrite Hn, index_last, Hlast.
      unfold n_sampled_at. cbn [set_n_sampled n_sampled finish_line].
      rewrite index_last, last_snoc, Hfl. cbn [int_gt].
      destruct (Z.ltb_spec fl (t + len x)); [reflexivity|lia].
    + intros Hunder m since Hmin Hsince.
      apply (Optimisation_stop_next self fl l t x y m since); auto.
      destruct (Z.ltb_spec fl (t + len x)); [lia|reflexivity].
Qed.

Lemma scan_result self ns cut nl (k : nat) :
  n_sampled self = Some ns -> last ns = Some nl ->
  length ns = length (optimals self) ->
  (k < length (optimals self))%nat ->
  scan self cut (range_down (Z.of_nat k) 0) = Ok None
  \/ exists j nj, (1 <= j <= k)%nat /\ ns !! j = Some nj
                  /\ scan self cut (range_down (Z.of_nat k) 0)
                     = Ok (Some (nl - nj)).
Proof.
  intros Hns Hnl Hlen. induction k as [|k IH]; intros Hk.
  - left. reflexivity.
  - rewrite range_down_S. cbn [scan]. rewrite index_nat.
    destruct (optimals self !! S k) as [ok|] eqn:Hok.
    2:{ apply lookup_ge_None in Hok. lia. }
    destruct (fgtb (condition self cut ok) (epsilon self)).
    + right. unfold n_sampled_at. rewrite Hns, index_last, Hnl, index_nat.
      destruct (ns !! S k) as [nk|] eqn:Hnk.
      2:{ apply lookup_ge_None in Hnk. lia. }
      exists (S k), nk. split; [lia|]. auto.
    + destruct IH as [Hnone|(j & nj & Hj & Hnj & Hscan)]; [lia|auto|].
      right. exists j, nj. split; [lia|]. auto.
Qed.

(** X3. When the cumulative counts do not decrease,
    [_sampled_since_last_improvement] lies between 0 and the number of
    points sampled after the first iteration. *)
Theorem sampled_since_last_improvement_bounds self ns n0 nl :
  n_sampled self = Some ns ->
  length ns = length (optimals self) ->
  ns !! 0%nat = Some n0 -> last ns = Some nl ->
  (forall i j a b, (i <= j)%nat -> ns !! i = Some a -> ns !! j = Some b ->
                   a <= b) ->
  exists r, _sampled_since_last_improvement self = Ok r
            /\ 0 <= r <= nl - n0.
Proof.
  intros Hns Hlen Hn0 Hnl Hmono.
  assert (Hpos : (0 < length ns)%nat).
  { apply lookup_lt_Some in Hn0. exact Hn0. }
  assert (Hnl' : ns !! (length ns - 1)%nat = Some nl).
  { rewrite last_lookup in Hnl. now replace (length ns - 1)%nat
      with (Nat.pred (length ns)) by lia. }
  unfold _sampled_since_last_improvement. rewrite index_last.
  destruct (last (optimals self)) as [cut|] eqn:Hcut.
  2:{ apply last_None in Hcut. rewrite Hcut in Hlen. simpl in Hlen. lia. }
  rewrite scan_start.
  destruct (scan_result self ns cut nl (length (optimals self) - 2)
              Hns Hnl Hlen) as [Hnone|(j & nj & Hj & Hnj & Hscan)]; [lia| |].
  - rewrite Hnone. unfold n_sampled_at. rewrite Hns, index_last, Hnl.
    change 0 with (Z.of_nat 0). rewrite index_nat, Hn0.
    eexists. split; [reflexivity|].
    assert (n0 <= nl) by (eapply (Hmono 0%nat (length ns - 1)%nat); eauto; lia).
    lia.
  - rewrite Hscan. eexists. split; [reflexivity|].
    assert (n0 <= nj) by (eapply (Hmono 0%nat j); eauto; lia).
    assert (nj <= nl) by (eapply (Hmono j (length ns - 1)%nat); eauto; lia).
    lia.
Qed.

(** Cumulative counts of batches do not decrease. *)
Lemma running_totals_monotone (batches : list (@ndarray num * @ndarray num))
  start (i j : nat) a b :
  (i <= j)%nat ->
  running_totals start (batch_sizes batches) !! i = Some a ->
  running_totals start (batch_sizes batches) !! j = Some b ->
  a <= b.
Proof.
  revert start i j.
  assert (Hlow : forall bs start k c,
             running_totals start (batch_sizes (num:=num) bs) !! k = Some c ->
             start <= c).
  { induction bs as [|[x y] bs IH]; intros start k c Hc; [discriminate|].
    simpl in Hc. destruct k as [|k].
    - injection Hc as <-. unfold len. lia.
    - simpl in Hc. apply IH in Hc. unfold len in Hc. lia. }
  induction batches as [|[x y] batches IH]; intros start i j Hij Ha Hb;
    [discriminate|].
  simpl in Ha, Hb. destruct i as [|i], j as [|j]; try lia.
  - injection Ha as <-. injection Hb as <-. lia.
  - injection Ha as <-. simpl in Hb. now apply Hlow in Hb.
  - simpl in Ha, Hb. eapply IH; [|exact Ha|exact Hb]. lia.
Qed.

(** X5. With a numeric [finish_line], a run of the PosteriorSampling
    criterion answers [False] for as long as the points sampled so far stay
    below [finish_line] and [True] at the batch that reaches it; the running
    total is then the sum of the batch sizes up to that batch, and later
    batches are not looked at. *)
Theorem posterior_sampling_stops_at_first_total_reaching
  (fl n : Z) (pre post : list (@ndarray num * @ndarray num)) (x y : @ndarray num) :
  n + total (batch_sizes pre) < fl ->
  fl <= n + total (batch_sizes pre) + len x ->
  criterion_run PosteriorSampling_stop_experiment (pre ++ (x, y) :: post)
    {| ps_finish_line := Some fl; ps_n_sampled := n |}
  = ({| ps_finish_line := Some fl;
        ps_n_sampled := n + total (batch_sizes pre) + len x |},
     replicate (length pre) (Ok false) ++ [Ok true])%list.
Proof.
  pose proof (PosteriorSampling_stop_numeric (num:=num)) as Hstep.
  revert n. induction pre as [|[x1 y1] pre IH]; intros n Hbelow Hreach.
  - simpl in *. rewrite Hstep.
    replace (fl <=? n + len x) with true by lia.
    do 2 f_equal. unfold total. simpl. lia.
  - cbn [app criterion_run]. rewrite Hstep.
    pose proof (total_batch_sizes_nonneg pre) as Hnn.
    change (total (batch_sizes ((x1, y1) :: pre)))
      with (len x1 + total (batch_sizes pre)) in *.
    replace (fl <=? n + len x1) with false by lia.
    rewrite (IH (n + len x1)) by lia.
    simpl. do 3 f_equal. lia.
Qed.

End CriterionRuns.

(** ** The Logger's streams, line by line *)

Lemma append_inj_prefix (s a b : string) : s ++ a = s ++ b -> a = b.
Proof.
  induction s as [|c s IH]; intros Heq; [exact Heq|].
  change (String c (s ++ a) = String c (s ++ b)) in Heq.
  injection Heq as Heq. auto.
Qed.

Lemma stream_paths_distinct (dir : string) :
  dir ++ os_sep ++ "samples.csv" <> dir ++ os_sep ++ "functioncalls.csv"
  /\ dir ++ os_sep ++ "samples.csv" <> dir ++ os_sep ++ "methodcalls.csv"
  /\ dir ++ os_sep ++ "functioncalls.csv" <> dir ++ os_sep ++ "methodcalls.csv".
Proof.
  repeat split; intros Heq; apply append_inj_prefix in Heq; discriminate Heq.
Qed.

(** What [Logger.__init__] leaves behind. *)
Lemma Logger_init_effect (p dir : string) (fs0 : gmap string file) :
  exists l fs1,
    Logger_init p dir fs0 = ((l, fs1), Ok tt)
    /\ basepath l = p /\ lpath l = dir /\ method_calls l = 0
    /\ create_samples_header l = true
    /\ on_folder dir l
    /\ fs1 !! handle_samples l
       = Some {| content := []; pending := []; is_open := true |}
    /\ fs1 !! handle_functioncalls l
       = Some {| content := [];
                 pending :=
                   ["method_call_id,n_queried,dt,asked_for_derivative" ++ nl];
                 is_open := true |}
    /\ fs1 !! handle_methodcalls l
       = Some {| content := [];
                 pending :=
                   ["method_call_id,dt,total_dataset_size,new_data_generated"
                    ++ nl];
                 is_open := true |}
    /\ (forall q, ~ In q (stream_paths dir) -> fs1 !! q = fs0 !! q).
Proof.
  destruct (stream_paths_distinct dir) as (Hsf & Hsm & Hfm).
  unfold Logger_init, _create_handles.
  unfold bind at 1. unfold self_logger at 1. cbn [fst snd].
  unfold bind at 1. unfold open_file at 1. cbn [fst snd].
  unfold bind at 1. unfold open_file at 1. cbn [fst snd].
  unfold bind at 1. erewrite write_open by apply lookup_insert_eq.
  unfold bind at 1. unfold open_file at 1. cbn [fst snd].
  erewrite write_open by apply lookup_insert_eq.
  eexists _, _. split; [reflexivity|].
  cbn [basepath lpath method_calls create_samples_header handle_samples
       handle_functioncalls handle_methodcalls].
  unfold open_w.
  repeat split.
  - rewrite !lookup_insert_ne by congruence. apply lookup_insert_eq.
  - rewrite !lookup_insert_ne by congruence. rewrite lookup_insert_eq.
    reflexivity.
  - rewrite lookup_insert_eq. reflexivity.
  - intros q Hq. unfold stream_paths in Hq. simpl in Hq.
    rewrite !lookup_insert_ne by (intros E; subst q; tauto). reflexivity.
Qed.

(** X6. A new Logger starts counting at 0 with the samples header pending.
    Its three streams are open and truncated, whatever was stored at those
    paths before: nothing has been written to the samples stream, and the
    function-call and method-call streams have been handed their header
    line, [method_call_id,n_queried,dt,asked_for_derivative] and
    [method_call_id,dt,total_dataset_size,new_data_generated].  Neither
    header has been flushed: [__init__] calls no [flush()], so the lines
    sit in the file objects' buffers.  No other file is touched. *)
Theorem new_logger_streams (p dir : string) (fs0 : gmap string file) :
  exists l fs1,
    Logger_init p dir fs0 = ((l, fs1), Ok tt)
    /\ basepath l = p /\ lpath l = dir /\ method_calls l = 0
    /\ create_samples_header l = true
    /\ on_folder dir l
    /\ fs1 !! handle_samples l
       = Some {| content := []; pending := []; is_open := true |}
    /\ fs1 !! handle_functioncalls l
       = Some {| content := [];
                 pending :=
                   ["method_call_id,n_queried,dt,asked_for_derivative" ++ nl];
                 is_open := true |}
    /\ fs1 !! handle_methodcalls l
       = Some {| content := [];
                 pending :=
                   ["method_call_id,dt,total_dataset_size,new_data_generated"
                    ++ nl];
                 is_open := true |}
    /\ (forall q, ~ In q (stream_paths dir) -> fs1 !! q = fs0 !! q).
Proof. exact (Logger_init_effect p dir fs0). Qed.

Section StreamLines.
Context {num : Type} `{PyFloat num}.


Lemma range_len {A} (x : list A) : range (len x) = map Z.of_nat (seq 0 (length x)).
Proof. unfold range, len. now rewrite Nat2Z.id. Qed.







Lemma write_closed (l : Logger) (fs : gmap string file) p text :
  file_state false p fs ->
  write p text (l, fs) = ((l, fs), Raise ValueError).
Proof.
  intros (f & Hf & Ho). unfold write, write_to. simpl.
  now rewrite Hf, Ho.
Qed.

(** X9. Once the Logger has been deleted its streams are closed for good:
    a later [log_method_calls], a [log_function_calls] with an entry, or
    a [log_samples] with a point raises ValueError and writes nothing. *)
Theorem logging_after_teardown_raises (dir : string) (l : Logger)
  (fs : gmap string file) :
  on_folder dir l -> streams true dir fs ->
  (forall (dt : num) total new,
      log_method_calls dt total new (l, Logger_del l fs)
      = ((l, Logger_del l fs), Raise ValueError))
  /\ (forall (entry : Z * num * bool) counter,
      log_function_calls (entry :: counter) (l, Logger_del l fs)
      = ((l, Logger_del l fs), Raise ValueError))
  /\ (forall (x0 : list num) xs (y0 : list num) ys,
      log_samples (x0 :: xs) (y0 :: ys) (l, Logger_del l fs)
      = ((l, Logger_del l fs), Raise ValueError)).
Proof.
  intros Hon Hfs.
  pose proof (Logger_del_streams dir l fs Hon Hfs) as Hclosed.
  assert (Hs : file_state false (handle_samples l) (Logger_del l fs)).
  { apply Hclosed. rewrite <- Hon. simpl. auto. }
  assert (Hf : file_state false (handle_functioncalls l) (Logger_del l fs)).
  { apply Hclosed. rewrite <- Hon. simpl. auto. }
  assert (Hm : file_state false (handle_methodcalls l) (Logger_del l fs)).
  { apply Hclosed. rewrite <- Hon. simpl. auto. }
  split; [|split].
  - intros dt total new. unfold log_method_calls.
    unfold bind at 1. unfold self_logger at 1. cbn [fst snd].
    now apply write_closed.
  - intros entry counter. unfold log_function_calls. cbn [for_].
    unfold bind at 1. unfold bind at 1. unfold self_logger at 1.
    cbn [fst snd]. now rewrite write_closed.
  - intros x0 xs y0 ys. unfold log_samples.
    unfold bind at 1. unfold self_logger at 1. cbn [fst snd].
    destruct (create_samples_header l).
    + unfold bind at 1. unfold bind at 1.
      change (lift (index (x0 :: xs) 0) (l, Logger_del l fs))
        with ((l, Logger_del l fs), Ok x0).
      cbv beta iota. unfold bind at 1.
      change (lift (index (y0 :: ys) 0) (l, Logger_del l fs))
        with ((l, Logger_del l fs), Ok y0).
      cbv beta iota. unfold bind at 1.
      now rewrite write_closed.
    + unfold bind at 1. unfold ret at 1. rewrite range_len.
      cbn [length seq map for_]. unfold bind at 1.
      unfold bind at 1. unfold bind at 1. unfold self_logger at 1.
      cbn [fst snd]. unfold bind at 1, lift at 1.
      change (index (map fstr x0 :: map (map fstr) xs) (Z.of_nat 0))
        with (Ok (map fstr x0)).
      cbv beta iota. unfold bind at 1, lift at 1.
      change (index (map fstr y0 :: map (map fstr) ys) (Z.of_nat 0))
        with (Ok (map fstr y0)).
      cbv beta iota. now rewrite write_closed.
Qed.

End StreamLines.

(** ** What a run does before and around the loop *)

Section RunBehaviour.
Context {num : Type} `{PyFloat num}.

Lemma on_logger_attrs {C A} (c : LM A) (w : World C) :
  attrs (fst (on_logger c w)) = attrs w.
Proof.
  unfold on_logger. destruct (logger w) as [l|]; [|reflexivity].
  destruct (c (l, fs w)) as [[l' fs'] r]. reflexivity.
Qed.

(** A completed loop body hands the method's batch to the stopping check,
    has added its size to the running count, and has left the criterion's
    state alone. *)
Lemma iteration_result {C} log_data (it : @Iteration num) n (w w1 : World C)
  n1 x y :
  iteration log_data it n w = (w1, Ok (n1, x, y)) ->
  attrs w1 = attrs w /\ method_call it = Ok (x, y) /\ n1 = n + len x.
Proof.
  unfold iteration. intros Hrun.
  unfold bind at 1 in Hrun.
  pose proof (on_logger_attrs
                (update_self (fun self =>
                   set_method_calls (method_calls self + 1) self)) w) as Ha1.
  destruct (on_logger _ w) as [wa [[]|e]]; [|discriminate]. simpl in Ha1.
  unfold bind at 1, lift at 1 in Hrun.
  destruct (method_call it) as [[x' y']|e]; [|discriminate].
  cbn [fst snd] in Hrun.
  unfold bind at 1 in Hrun.
  pose proof (on_logger_attrs (log_method_calls (dt it) (n + len x') (len x')) wa)
    as Ha2.
  destruct (on_logger (log_method_calls _ _ _) wa) as [wb [[]|e]];
    [|discriminate]. simpl in Ha2.
  unfold bind at 1 in Hrun.
  assert (Ha3 : forall wc r,
             (if log_data then on_logger (log_samples x' y') else ret tt) wb
             = (wc, r) -> attrs wc = attrs wb).
  { intros wc r Hc. destruct log_data.
    - pose proof (on_logger_attrs (log_samples x' y') wb) as Hs.
      rewrite Hc in Hs. exact Hs.
    - injection Hc as <- _. reflexivity. }
  destruct ((if log_data then on_logger (log_samples x' y') else ret tt) wb)
    as [wc [[]|e]] eqn:Hc; [|discriminate].
  specialize (Ha3 _ _ eq_refl).
  unfold bind at 1 in Hrun.
  pose proof (on_logger_attrs (log_function_calls (counter it)) wc) as Ha4.
  destruct (on_logger (log_function_calls (counter it)) wc) as [wd [[]|e]];
    [|discriminate]. simpl in Ha4.
  unfold bind at 1, lift at 1 in Hrun.
  destruct (reset it) as [[]|e]; [|discriminate].
  unfold ret in Hrun. injection Hrun as <- <- <- <-.
  split; [congruence|]. auto.
Qed.

(** One pass of the loop, by the outcome of its body and of the check. *)
Lemma while_not_finished_step {C} (stop : @ndarray num -> @ndarray num -> M C bool)
  log_data (it : @Iteration num) (script' : list (@Iteration num)) n
  (w : World C) :
  while_not_finished stop log_data (it :: script') n w
  = match iteration log_data it n w with
    | (w1, Raise e) => (w1, Raise e)
    | (w1, Ok (n1, x, y)) =>
        match is_finished it with
        | Raise e => (w1, Raise e)
        | Ok true => (w1, Ok Halted)
        | Ok false =>
            match on_self (stop x y) w1 with
            | (w2, Ok true) => (w2, Ok Halted)
            | (w2, Ok false) => while_not_finished stop log_data script' n1 w2
            | (w2, Raise e) => (w2, Raise e)
            end
        end
    end.
Proof.
  cbn [while_not_finished]. unfold bind at 1.
  destruct (iteration log_data it n w) as [w1 [[[n1 x] y]|e]]; [|reflexivity].
  unfold stopping_check, bind, lift, ret.
  destruct (is_finished it) as [[|]|e]; try reflexivity.
  destruct (on_self (stop x y) w1) as [w2 [[|]|e]]; reflexivity.
Qed.

(** X12. With a numeric [finish_line] and a method that yields at least one
    point per call, the PosteriorSampling loop is over -- halted or left by
    an error -- after at most [finish_line] minus the points already
    counted iterations, and after one iteration when that is not
    positive: the script never runs out. *)
Theorem posterior_sampling_loop_is_bounded log_data
  (script : list (@Iteration num)) (fl t n : Z)
  (w : World PosteriorSamplingExperiment) :
  attrs w = {| ps_finish_line := Some fl; ps_n_sampled := t |} ->
  Forall (fun it => forall x y, method_call it = Ok (x, y) -> 1 <= len x)
         script ->
  (1 <= length script)%nat ->
  fl - t <= Z.of_nat (length script) ->
  snd (while_not_finished PosteriorSampling_stop_experiment log_data script n w)
  <> Ok ScriptEnded.
Proof.
  revert t n w. induction script as [|it script IH];
    intros t n w Hattrs Hpoints Hone Hlen; [simpl in Hone; lia|].
  inversion Hpoints as [|? ? Hit Hrest]; subst.
  rewrite while_not_finished_step.
  destruct (iteration log_data it n w) as [w1 [[[n1 x] y]|e]] eqn:Hbody;
    [|discriminate].
  destruct (iteration_result _ _ _ _ _ _ _ _ Hbody) as (Ha & Hcall & ->).
  destruct (is_finished it) as [[|]|e]; try discriminate.
  unfold on_self. rewrite Ha, Hattrs, PosteriorSampling_stop_numeric.
  destruct (Z.leb_spec fl (t + len x)) as [Hreach|Hbelow]; [discriminate|].
  specialize (Hit x y Hcall).
  apply (IH (t + len x)); auto; simpl in Hlen |- *; lia.
Qed.

(** An evaluation that answers [False] has counted the batch and stayed
    within the hard cap. *)
Lemma stop_false_below_cap (self : @OptimisationExperiment num) fl
  (x y : @ndarray num) self' :
  finish_line self = Some fl ->
  Optimisation_stop_experiment x y self = (self', Ok false) ->
  finish_line self' = Some fl
  /\ points_counted self' = points_counted self + len x
  /\ points_counted self' <= fl.
Proof.
  intros Hfl Hstep.
  unfold Optimisation_stop_experiment, bind, get, put, lift, ret in Hstep.
  unfold points_counted.
  destruct (n_sampled self) as [l|] eqn:Hn.
  - rewrite index_last in Hstep.
    destruct (last l) as [t|] eqn:Hlast; [|discriminate].
    unfold n_sampled_at in Hstep at 1.
    cbn [set_n_sampled n_sampled finish_line] in Hstep.
    rewrite index_last, last_snoc, Hfl in Hstep. cbn [int_gt] in Hstep.
    destruct (Z.ltb_spec fl (t + len x)) as [Hover|Hunder]; [discriminate|].
    destruct (np_min y) as [m|e]; [|discriminate].
    destruct (_sampled_since_last_improvement _) as [since|e]; [|discriminate].
    destruct (_ <? since); [discriminate|].
    injection Hstep as <-. simpl. rewrite last_snoc. simpl. auto.
  - unfold n_sampled_at in Hstep at 1.
    cbn [set_n_sampled n_sampled finish_line] in Hstep.
    change (index [len x] (-1)) with (Ok (len x)) in Hstep.
    rewrite Hfl in Hstep. cbn [int_gt] in Hstep.
    destruct (Z.ltb_spec fl (len x)) as [Hover|Hunder]; [discriminate|].
    destruct (np_min y) as [m|e]; [|discriminate].
    destruct (_sampled_since_last_improvement _) as [since|e]; [|discriminate].
    destruct (_ <? since); [discriminate|].
    injection Hstep as <-. simpl. auto.
Qed.

(** X13. With a numeric [finish_line] and a method that yields at least one
    point per call, the Optimisation loop is over -- halted or left by an
    error -- after at most [finish_line + 1] minus the points already
    counted iterations, whatever the improvement history: the hard cap
    bounds every run. *)
Theorem optimisation_loop_is_bounded log_data
  (script : list (@Iteration num)) (fl n : Z)
  (w : World (@OptimisationExperiment num)) :
  finish_line (attrs w) = Some fl ->
  Forall (fun it => forall x y, method_call it = Ok (x, y) -> 1 <= len x)
         script ->
  (1 <= length script)%nat ->
  fl + 1 - points_counted (attrs w) <= Z.of_nat (length script) ->
  snd (while_not_finished Optimisation_stop_experiment log_data script n w)
  <> Ok ScriptEnded.
Proof.
  revert n w. induction script as [|it script IH];
    intros n w Hfl Hpoints Hone Hlen; [simpl in Hone; lia|].
  inversion Hpoints as [|? ? Hit Hrest]; subst.
  rewrite while_not_finished_step.
  destruct (iteration log_data it n w) as [w1 [[[n1 x] y]|e]] eqn:Hbody;
    [|discriminate].
  destruct (iteration_result _ _ _ _ _ _ _ _ Hbody) as (Ha & Hcall & ->).
  destruct (is_finished it) as [[|]|e]; try discriminate.
  unfold on_self. rewrite Ha.
  destruct (Optimisation_stop_experiment x y (attrs w)) as [self' [[|]|e]]
    eqn:Hstep; try discriminate.
  destruct (stop_false_below_cap _ _ _ _ _ Hfl Hstep) as (Hfl' & Hcount & Hcap).
  specialize (Hit x y Hcall).
  apply IH; simpl in Hlen |- *; auto; lia.
Qed.

End RunBehaviour.

(** ** The method-call stream over a run *)

Section MethodCallRecords.
Context {num : Type} `{PyFloat num}.
Variable dir : string.

Lemma on_folder_handles (l : Logger) :
  on_folder dir l ->
  handle_samples l = dir ++ os_sep ++ "samples.csv"
  /\ handle_functioncalls l = dir ++ os_sep ++ "functioncalls.csv"
  /\ handle_methodcalls l = dir ++ os_sep ++ "methodcalls.csv".
Proof.
  unfold on_folder, stream_paths. intros Heq. injection Heq. auto.
Qed.








Section InWorld.
Context {C : Type}.
Variable stop : @ndarray num -> @ndarray num -> M C bool.






End InWorld.

End MethodCallRecords.


Section RunRecords.
Context {num : Type} `{PyFloat num} {C : Type}.
Variable stop : @ndarray num -> @ndarray num -> M C bool.



End RunRecords.

(** ** Starting a run *)

Section StartingARun.
Context {num : Type} `{PyFloat num}.

Lemma getattr_run :
  class_getattr cls_OptimisationExperiment "run" = Some def_Optimisation_run
  /\ class_getattr cls_OptimizationExperiment "run" = Some def_Optimisation_run
  /\ class_getattr cls_PosteriorSamplingExperiment "run"
     = Some def_PosteriorSampling_run.
Proof. repeat split; vm_compute; reflexivity. Qed.


(** X15. [run] stores its arguments and starts the criterion from scratch:
    what a run does and returns does not depend on the criterion state a
    previous run left in the experiment object. *)
Theorem run_starts_from_a_fresh_criterion_state (env : @Setting num)
  (w : World (@instance_attrs num)) (previous : @instance_attrs num) :
  let w' := {| attrs := previous; path := path w; logger := logger w;
               fs := fs w; stdout := stdout w |} in
  (forall eps absolute pat fl log_data c,
      In c [cls_OptimisationExperiment; cls_OptimizationExperiment] ->
      call_run c (OptimisationArgs eps absolute pat fl log_data) env w'
      = call_run c (OptimisationArgs eps absolute pat fl log_data) env w)
  /\ (forall fl log_data,
      call_run cls_PosteriorSamplingExperiment
        (PosteriorSamplingArgs fl log_data) env w'
      = call_run cls_PosteriorSamplingExperiment
          (PosteriorSamplingArgs fl log_data) env w).
Proof.
  destruct getattr_run as (Hopt & Hoptz & Hpost).
  intros w'. split.
  - intros eps absolute pat fl log_data c [<-|[<-|[]]];
      unfold call_run; rewrite ?Hopt, ?Hoptz; reflexivity.
  - intros fl log_data. unfold call_run. rewrite Hpost. reflexivity.
Qed.



End StartingARun.

(** ** More on the scan and the snapshot *)

(** X4. After one evaluation the count since the last improvement is 0,
    and after two it is the size of the second batch, whatever the two
    optima, [epsilon] and the mode are: the scan has no entry to test, so
    an improvement in the second iteration goes unnoticed. *)
Theorem first_two_evaluations_ignore_the_optima {num : Type} `{PyFloat num}
  (eps : num) (absolute : bool) (pat : Z) (fl : option Z) (a b : Z)
  (o0 o1 : num) :
  _sampled_since_last_improvement
    {| epsilon := eps; absolute_improvement := absolute; patience := pat;
       finish_line := fl; n_sampled := Some [a]; optimals := [o0] |}
  = Ok 0
  /\ _sampled_since_last_improvement
       {| epsilon := eps; absolute_improvement := absolute; patience := pat;
          finish_line := fl; n_sampled := Some [a; b]; optimals := [o0; o1] |}
     = Ok (b - a).
Proof.
  split.
  - unfold _sampled_since_last_improvement, n_sampled_at. simpl.
    f_equal. lia.
  - reflexivity.
Qed.

Lemma lookup_close p q (fs : gmap string file) :
  close p fs !! q
  = if decide (p = q)
    then (fun f => if is_open f
                   then {| content := content f ++ pending f; pending := [];
                           is_open := false |}
                   else f) <$> fs !! q
    else fs !! q.
Proof.
  unfold close. destruct (decide (p = q)) as [->|Hne].
  - now rewrite lookup_alter_eq.
  - now rewrite lookup_alter_ne.
Qed.

(** X11. [log_experiment] replaces whatever the run folder held as
    [experiment.yaml] by the one dumped text and leaves the file closed;
    when collecting the description raises, the file is left empty and
    the error is passed on.  No other file changes. *)
Theorem log_experiment_overwrites (l : Logger) (fs : gmap string file)
  (meta : result string) :
  snd (log_experiment meta (l, fs))
  = match meta with Ok _ => Ok tt | Raise e => Raise e end
  /\ snd (fst (log_experiment meta (l, fs)))
       !! (lpath l ++ os_sep ++ "experiment.yaml")
     = Some {| content := match meta with Ok text => [text] | Raise _ => [] end;
               pending := [];
               is_open := false |}
  /\ (forall q, q <> lpath l ++ os_sep ++ "experiment.yaml" ->
        snd (fst (log_experiment meta (l, fs))) !! q = fs !! q).
Proof.
  unfold log_experiment.
  destruct meta as [text|e];
    unfold bind, self_logger, open_file, close_file, raise, write, write_to,
      open_w;
    cbn [fst snd]; rewrite ?lookup_insert_eq;
    cbn [fst snd is_open content pending].
  - split; [reflexivity|]. split.
    + rewrite lookup_close. case_decide; [|congruence].
      rewrite lookup_insert_eq. reflexivity.
    + intros q Hq. rewrite lookup_close. case_decide; [congruence|].
      now rewrite !lookup_insert_ne.
  - split; [reflexivity|]. split.
    + rewrite lookup_close. case_decide; [|congruence].
      rewrite lookup_insert_eq. reflexivity.
    + intros q Hq. rewrite lookup_close. case_decide; [congruence|].
      now rewrite lookup_insert_ne.
Qed.

(** ** The further properties on concrete data *)

(** The first three batches of the worked scenario. *)
Lemma optimisation_state_records_the_run_witness :
  n_sampled (fst (criterion_run Optimisation_stop_experiment
                    (take 3 scenario_batches) (scenario (Some 1000))))
  = Some [1; 2; 3]
  /\ optimals (fst (criterion_run Optimisation_stop_experiment
                      (take 3 scenario_batches) (scenario (Some 1000))))
     = [10 # 1; 9 # 1; 895 # 100]%Q.
Proof.
  destruct (optimisation_state_records_the_run (1 # 10)%Q true 2 (Some 1000)
              (take 3 scenario_batches)
              (fst (criterion_run Optimisation_stop_experiment
                      (take 3 scenario_batches) (scenario (Some 1000))))
              (snd (criterion_run Optimisation_stop_experiment
                      (take 3 scenario_batches) (scenario (Some 1000)))))
    as (Hn & Ho & _).
  - discriminate.
  - apply surjective_pairing.
  - vm_compute. repeat constructor.
  - split; [exact Hn|reflexivity].
Defined.

(** A first batch of one point against a cap of 0, and a fifth point
    against a cap of 4, each with nothing in [y]. *)
Lemma hard_cap_is_strict_and_comes_first_witness :
  Optimisation_stop_experiment [[0%Q]] [] (scenario (Some 0))
  = (set_n_sampled [len [[0%Q]]] (scenario (Some 0)), Ok true)
  /\ Optimisation_stop_experiment [[0%Q]] [] (scenario_after_four (Some 4))
     = (set_n_sampled ([1; 2; 3; 4] ++ [4 + len [[0%Q]]])
          (scenario_after_four (Some 4)), Ok true).
Proof.
  split.
  - apply (proj1 (proj1 (hard_cap_is_strict_and_comes_first
                           (scenario (Some 0)) 0 [[0%Q]] [] eq_refl)
                    eq_refl)).
    vm_compute. reflexivity.
  - apply (proj1 (proj2 (hard_cap_is_strict_and_comes_first
                           (scenario_after_four (Some 4)) 4 [[0%Q]] []
                           eq_refl)
                    [1; 2; 3; 4] 4 eq_refl eq_refl)).
    vm_compute. reflexivity.
Defined.

Lemma sampled_since_last_improvement_bounds_witness :
  exists r, _sampled_since_last_improvement (scenario_after_four (Some 1000))
            = Ok r /\ 0 <= r <= 4 - 1.
Proof.
  apply (sampled_since_last_improvement_bounds
           (scenario_after_four (Some 1000)) [1; 2; 3; 4] 1 4
           eq_refl eq_refl eq_refl eq_refl).
  intros i j a b Hij Ha Hb.
  destruct i as [|[|[|[|i]]]]; simpl in Ha; try discriminate;
    injection Ha as <-;
    destruct j as [|[|[|[|j]]]]; simpl in Hb; try discriminate;
    injection Hb as <-; lia.
Defined.

Lemma posterior_sampling_stops_at_first_total_reaching_witness :
  criterion_run PosteriorSampling_stop_experiment
    ([(replicate 40 [0%Q], replicate 40 [1%Q]);
      (replicate 40 [0%Q], replicate 40 [1%Q])]
     ++ (replicate 30 [0%Q], replicate 30 [1%Q])
     :: [(replicate 5 [0%Q], replicate 5 [1%Q])])
    {| ps_finish_line := Some 100; ps_n_sampled := 0 |}
  = ({| ps_finish_line := Some 100;
        ps_n_sampled :=
          0 + total (batch_sizes [(replicate 40 [0%Q], replicate 40 [1%Q]);
                                  (replicate 40 [0%Q], replicate 40 [1%Q])])
          + len (replicate 30 [0%Q]) |},
     replicate 2 (Ok false) ++ [Ok true])%list.
Proof.
  apply (posterior_sampling_stops_at_first_total_reaching 100 0
           [(replicate 40 [0%Q], replicate 40 [1%Q]);
            (replicate 40 [0%Q], replicate 40 [1%Q])]
           [(replicate 5 [0%Q], replicate 5 [1%Q])]
           (replicate 30 [0%Q]) (replicate 30 [1%Q])).
  - vm_compute. reflexivity.
  - vm_compute. discriminate.
Defined.



Lemma fresh_logger_streams :
  on_folder "out/sphere" (fst fresh_logger)
  /\ streams true "out/sphere" (snd fresh_logger).
Proof.
  split; [reflexivity|].
  intros h [<-|[<-|[<-|[]]]]; eexists; (split; [vm_compute; reflexivity|]);
    reflexivity.
Defined.

Lemma logging_after_teardown_raises_witness :
  log_method_calls 0%Q 1 1
    (fst fresh_logger, Logger_del (fst fresh_logger) (snd fresh_logger))
  = ((fst fresh_logger, Logger_del (fst fresh_logger) (snd fresh_logger)),
     Raise ValueError).
Proof.
  apply (proj1 (logging_after_teardown_raises "out/sphere" (fst fresh_logger)
                  (snd fresh_logger) (proj1 fresh_logger_streams)
                  (proj2 fresh_logger_streams))).
Defined.

(** Two iterations of one point against a finish line of 2. *)
Lemma posterior_sampling_loop_is_bounded_witness :
  snd (while_not_finished PosteriorSampling_stop_experiment true
         [one_point_iteration false; one_point_iteration false] 0
         (logging_world {| ps_finish_line := Some 2; ps_n_sampled := 0 |}))
  <> Ok ScriptEnded.
Proof.
  apply (posterior_sampling_loop_is_bounded true
           [one_point_iteration false; one_point_iteration false] 2 0 0
           (logging_world {| ps_finish_line := Some 2; ps_n_sampled := 0 |})
           eq_refl).
  - repeat constructor; intros x y Hxy; injection Hxy as <- _;
      vm_compute; discriminate.
  - simpl. lia.
  - simpl. lia.
Defined.

(** Two iterations of one point against a hard cap of 1. *)
Lemma optimisation_loop_is_bounded_witness :
  snd (while_not_finished Optimisation_stop_experiment true
         [one_point_iteration false; one_point_iteration false] 0
         (logging_world (scenario (Some 1))))
  <> Ok ScriptEnded.
Proof.
  apply (optimisation_loop_is_bounded true
           [one_point_iteration false; one_point_iteration false] 1 0
           (logging_world (scenario (Some 1))) eq_refl).
  - repeat constructor; intros x y Hxy; injection Hxy as <- _;
      vm_compute; discriminate.
  - simpl. lia.
  - vm_compute. discriminate.
Defined.


Lemma run_starts_from_a_fresh_criterion_state_witness :
  call_run cls_OptimizationExperiment
    (OptimisationArgs (1 # 10)%Q true 2 (Some 1000) true)
    (setting_with [one_point_iteration true])
    (fresh_world (OptimisationAttrs (scenario_after_four (Some 5))))
  = call_run cls_OptimizationExperiment
      (OptimisationArgs (1 # 10)%Q true 2 (Some 1000) true)
      (setting_with [one_point_iteration true])
      (fresh_world NoAttrs).
Proof.
  apply (proj1 (run_starts_from_a_fresh_criterion_state
                  (setting_with [one_point_iteration true])
                  (fresh_world NoAttrs)
                  (OptimisationAttrs (scenario_after_four (Some 5))))).
  right. left. reflexivity.
Defined.


Lemma new_logger_streams_witness :
  exists l fs1,
    Logger_init "out" "out/sphere" ∅ = ((l, fs1), Ok tt)
    /\ fs1 !! "out/sphere/methodcalls.csv"
       = Some {| content := [];
                 pending :=
                   ["method_call_id,dt,total_dataset_size,new_data_generated"
                    ++ nl];
                 is_open := true |}
    /\ fs1 !! "out/benchmarks.yaml" = None.
Proof.
  destruct (new_logger_streams "out" "out/sphere" ∅)
    as (l & fs1 & Hinit & _ & _ & _ & _ & Hon & _ & _ & Hm & Hother).
  exists l, fs1. split; [exact Hinit|]. split.
  - destruct (on_folder_handles "out/sphere" l Hon) as (_ & _ & Hhm).
    rewrite Hhm in Hm. exact Hm.
  - rewrite Hother; [reflexivity|].
    intros [E|[E|[E|[]]]]; discriminate E.
Defined.

Lemma log_experiment_overwrites_witness :
  snd (fst (log_experiment (Ok "meta") fresh_logger))
    !! "out/sphere/samples.csv"
  = snd fresh_logger !! "out/sphere/samples.csv".
Proof.
  apply (proj2 (proj2 (log_experiment_overwrites (fst fresh_logger)
                         (snd fresh_logger) (Ok "meta")))).
  discriminate.
Defined.
